(** * The weekly update-label job (github-actions/add-update-label-weekly/add-label.js)

    A shallow embedding of the timeline classifier [isTimelineOutdated], of
    the helpers it calls and of the label dispatch of [main], followed by the
    properties of the classification that the specification states; then of
    the rest of the job (the pages of cards and of timelines, the run over
    the issues, the text of the comment) with properties read off the code.

    Conventions of the embedding:
    - a JavaScript evaluation either completes normally or throws; functions
      that read a property of a possibly missing object live in the
      [completion] monad;
    - an instant is the time value of a [Date], an integer number of
      milliseconds since the epoch ([Z]);
    - a timestamp field of the API is [option string]: [None] stands for
      [undefined]/[null];
    - the two externals of the file are taken as parameters: the built-in
      date parser behind [new Date(string)] and the module
      [../utils/find-linked-issue];
    - what [formatComment] asks of the runtime, the text of the template
      file and the printing of the cutoff by [toLocaleString], is a
      [runtime] record whose two fields may throw. *)

From Stdlib Require Import ZArith String Ascii List Bool Lia Permutation.
Import ListNotations.

Local Open Scope string_scope.
Local Open Scope Z_scope.

(** ** Completions *)

Inductive jsError : Type :=
| TypeError.

Inductive completion (A : Type) : Type :=
| Normal (a : A)
| Throw (e : jsError).

Arguments Normal {A} a.
Arguments Throw {A} e.

Definition bind {A B : Type} (c : completion A) (k : A -> completion B) : completion B :=
  match c with
  | Normal a => k a
  | Throw e => Throw e
  end.

Definition fmap {A B : Type} (f : A -> B) (c : completion A) : completion B :=
  bind c (fun a => Normal (f a)).

Notation "x <- c ;; k" := (bind c (fun x => k))
  (at level 61, c at next level, right associativity).

(** [a === b] on strings. *)
Infix "===" := String.eqb (at level 70, no associativity).

(** [o.p] where [o] may be [undefined]: reading a property of [undefined]
    throws a TypeError. *)
Definition prop {A : Type} (o : option A) : completion A :=
  match o with
  | Some a => Normal a
  | None => Throw TypeError
  end.

(** ** Data model *)

Record user : Type := { login : string }.

(** [source.issue] of a cross-referenced event. *)
Record sourceIssue : Type := { body : string }.

(** One element of the array returned by the timeline API.  [actor],
    [assignee] and [source] are [None] when the object has no such property. *)
Record timelineEvent : Type := {
  event : string;
  actor : option user;
  assignee : option user;
  source : option sourceIssue;
  updated_at : option string;
  created_at : option string
}.

(** [{result: true/false, labels: string}] *)
Record response : Type := { result : bool; labels : string }.

(** The locals of [isTimelineOutdated]; [None] is [null]. *)
Record locals : Type := {
  lastAssignedTimestamp : option string;
  lastCommentTimestamp : option string
}.

(** Truthiness of a value that is [undefined]/[null] or a string. *)
Definition truthy (v : option string) : bool :=
  match v with
  | Some s => negb (s === "")
  | None => false
  end.

(** [a || b] *)
Definition js_or (a b : option string) : option string :=
  if truthy a then a else b.

(** [assignees.includes(x)] *)
Definition includes (l : list string) (x : string) : bool :=
  existsb (String.eqb x) l.

(** ** Global variables *)

Definition statusUpdatedLabel : string := "Status: Updated".
Definition toUpdateLabel : string := "To Update !".
Definition inactiveLabel : string := "2 weeks inactive".

Definition msPerDay : Z := 86400000.

Definition commentByDays : Z := 7.
Definition inactiveUpdatedByDays : Z := 14.

(** [d = new Date(); d.setDate(d.getDate() - days)] with [now] the instant
    read by [new Date()].  The job runs with a UTC clock, where a calendar
    day is 86400000 ms; the two reads of the clock at load time are taken to
    be the same instant. *)
Definition cutoff (now days : Z) : Z := now - days * msPerDay.

Definition sevenDayCutoffTime (now : Z) : Z := cutoff now commentByDays.
Definition fourteenDayCutoffTime (now : Z) : Z := cutoff now inactiveUpdatedByDays.

(** ** The classifier *)

Section Classifier.

(** [new Date(dateString)]: the time value, [None] for an Invalid Date. *)
Variable Date_parse : string -> option Z.

(** [require('../utils/find-linked-issue')]: the number of the issue that
    the text closes, fixes or resolves, [None] when it names none.  Issue
    numbers start at 1, and [findLinkedIssue(text) == issueNum] is the
    equality of two issue numbers. *)
Variable findLinkedIssue : string -> option positive.

(** *** Helper functions *)

(** A comparison with an Invalid Date is false. *)
Definition isMomentRecent (dateString : string) (cutoffTime : Z) : bool :=
  match Date_parse dateString with
  | Some dateStringObj => if cutoffTime <=? dateStringObj then true else false
  | None => false
  end.

Definition isLinkedIssue (data : timelineEvent) (issueNum : positive) : completion bool :=
  src <- prop (source data) ;;
  Normal match findLinkedIssue (body src) with
         | Some n => Pos.eqb n issueNum
         | None => false
         end.

Definition isCommentByAssignees (data : timelineEvent) (assignees : list string) : completion bool :=
  a <- prop (actor data) ;;
  Normal (includes assignees (login a)).

(** *** isTimelineOutdated *)

(** [ts && isMomentRecent(ts, cutoffTime)] *)
Definition recent (ts : option string) (cutoffTime : Z) : bool :=
  match ts with
  | Some s => truthy ts && isMomentRecent s cutoffTime
  | None => false
  end.

Definition eventTimestampOf (eventObj : timelineEvent) : option string :=
  js_or (updated_at eventObj) (created_at eventObj).

Section Loop.

Variable timeline : list timelineEvent.
Variable issueNum : positive.
Variable assignees : list string.

(** One iteration of the [for] loop at index [i]: [inl] is an early
    [return], [inr] the locals after the iteration. *)
Definition loop_body (i : nat) (eventObj : timelineEvent) (st : locals)
  : completion (response + locals) :=
  let eventType := event eventObj in
  crossRef <-
    (if eventType === "cross-referenced" then
       linked <- isLinkedIssue eventObj issueNum ;;
       if linked then
         a <- prop (actor eventObj) ;; Normal (includes assignees (login a))
       else Normal false
     else Normal false) ;;
  if crossRef then
    Normal (inl {| result := true; labels := statusUpdatedLabel |})
  else
    let eventTimestamp := eventTimestampOf eventObj in
    (* the log line of the first event reads eventObj.actor.login *)
    _ <- (if Nat.eqb i 0 then a <- prop (actor eventObj) ;; Normal (login a)
          else Normal "") ;;
    comment <-
      (if eventType === "commented" then isCommentByAssignees eventObj assignees
       else Normal false) ;;
    if comment then
      if negb (truthy (lastCommentTimestamp st)) then
        Normal (inr {| lastAssignedTimestamp := lastAssignedTimestamp st;
                       lastCommentTimestamp := eventTimestamp |})
      else Normal (inr st)
    else
      assigned <-
        (if eventType === "assigned" then
           a <- prop (assignee eventObj) ;; Normal (includes assignees (login a))
         else Normal false) ;;
      if assigned then
        if negb (truthy (lastAssignedTimestamp st)) then
          Normal (inr {| lastAssignedTimestamp := eventTimestamp;
                         lastCommentTimestamp := lastCommentTimestamp st |})
        else Normal (inr st)
      else Normal (inr st).

(** [for (let i = n - 1; i >= 0; i--)].  [timeline[i]] out of range is
    [undefined], whose [.event] throws. *)
Fixpoint for_loop (n : nat) (st : locals) : completion (response + locals) :=
  match n with
  | O => Normal (inr st)
  | S i =>
      eventObj <- prop (nth_error timeline i) ;;
      r <- loop_body i eventObj st ;;
      match r with
      | inl resp => Normal (inl resp)
      | inr st' => for_loop i st'
      end
  end.

End Loop.

(** The four tests after the loop. *)
Definition decide (now : Z) (st : locals) : response :=
  let lastAssignedTimestamp := lastAssignedTimestamp st in
  let lastCommentTimestamp := lastCommentTimestamp st in
  if recent lastCommentTimestamp (sevenDayCutoffTime now) then
    {| result := false; labels := statusUpdatedLabel |}
  else if recent lastAssignedTimestamp (sevenDayCutoffTime now) then
    {| result := false; labels := "" |}
  else if recent lastCommentTimestamp (fourteenDayCutoffTime now)
          || recent lastAssignedTimestamp (fourteenDayCutoffTime now) then
    {| result := true; labels := toUpdateLabel |}
  else
    {| result := true; labels := inactiveLabel |}.

Definition isTimelineOutdated (now : Z) (timeline : list timelineEvent)
           (issueNum : positive) (assignees : list string) : completion response :=
  r <- for_loop timeline issueNum assignees (length timeline)
         {| lastAssignedTimestamp := None; lastCommentTimestamp := None |} ;;
  match r with
  | inl resp => Normal resp
  | inr st => Normal (decide now st)
  end.

End Classifier.

Arguments isMomentRecent Date_parse dateString cutoffTime : simpl never.

(** ** The comment *)

(** What [formatComment] asks of the runtime.  [readFileSync] is the text
    of the template file, [None] when reading it throws.  [toLocaleString]
    is [cutoffTime.toLocaleString('en-US', options)] for the options of
    [formatComment], which set [dateStyle] and [timeStyle] together with
    [timeZoneName]: the text printed, [None] when the call throws, as it
    does on a runtime that follows ECMA-402, where this combination of
    options is a TypeError. *)
Record runtime : Type := {
  readFileSync : option string;
  toLocaleString : Z -> option string
}.

(** [arr.join(sep)] *)
Fixpoint join (sep : string) (arr : list string) : string :=
  match arr with
  | [] => ""
  | [x] => x
  | x :: rest => x ++ sep ++ join sep rest
  end.

Definition createAssigneeString (assignees : list string) : string :=
  join ", " (map (fun assignee => "@" ++ assignee) assignees).

(** The text before and the text after the first occurrence of [pattern]. *)
Fixpoint cut (pattern s : string) : option (string * string) :=
  if prefix pattern s then
    Some ("", substring (String.length pattern) (String.length s) s)
  else
    match s with
    | EmptyString => None
    | String c s' =>
        match cut pattern s' with
        | Some (before, after) => Some (String c before, after)
        | None => None
        end
    end.

(** The replacement text of [String.prototype.replace] for a string
    pattern, which captures nothing: [$$] is a dollar, [$&] the match,
    [$`] the text before it, [$'] the text after it, and any other [$]
    stands for itself. *)
Fixpoint getSubstitution (matched before after replacement : string) : string :=
  match replacement with
  | EmptyString => ""
  | String c rest =>
      if Ascii.eqb c "$" then
        match rest with
        | String d rest' =>
            if Ascii.eqb d "$" then
              "$" ++ getSubstitution matched before after rest'
            else if Ascii.eqb d "&" then
              matched ++ getSubstitution matched before after rest'
            else if Ascii.eqb d "`" then
              before ++ getSubstitution matched before after rest'
            else if Ascii.eqb d "'" then
              after ++ getSubstitution matched before after rest'
            else String c (getSubstitution matched before after rest)
        | EmptyString => String c ""
        end
      else String c (getSubstitution matched before after rest)
  end.

(** [s.replace(pattern, replacement)] with a string pattern: the first
    occurrence only. *)
Definition replace (pattern replacement s : string) : string :=
  match cut pattern s with
  | Some (before, after) =>
      before ++ getSubstitution pattern before after replacement ++ after
  | None => s
  end.

(** [formatComment]: the template is read, the cutoff printed, and the
    three placeholders replaced; [None] when one of the first two throws. *)
Definition formatComment (rt : runtime) (now : Z) (assignees labelString : string)
  : option string :=
  match readFileSync rt with
  | Some text =>
      match toLocaleString rt (sevenDayCutoffTime now) with
      | Some cutoffTimeString =>
          Some (replace "${label}" labelString
                  (replace "${cutoffTime}" cutoffTimeString
                     (replace "${assignees}" assignees text)))
      | None => None
      end
  | None => None
  end.

(** The [instructions] of [postComment]. *)
Definition instructions (rt : runtime) (now : Z) (assignees : list string)
           (labelString : string) : option string :=
  formatComment rt now (createAssigneeString assignees) labelString.

(** ** The label dispatch of main *)

(** What [removeLabels], [addLabels] and [postComment] do.  [removeLabel]
    and [addLabelsCall] are the requests of the first two.  [createComment]
    stands for a call of [postComment] with its arguments: [body] is the
    text of the request that the call sends, [None] when [formatComment]
    threw and no request is sent.  An error is caught and logged by each of
    the three, so what [main] does next does not depend on the replies. *)
Inductive call : Type :=
| removeLabel (issue_number : positive) (name : string)
| addLabelsCall (issue_number : positive) (labels : list string)
| createComment (issue_number : positive) (assignees : list string) (labelString : string)
                (body : option string).

Definition removeLabels (issueNum : positive) (labels : list string) : list call :=
  map (removeLabel issueNum) labels.

Definition addLabels (issueNum : positive) (labels : list string) : list call :=
  [addLabelsCall issueNum labels].

(** [formatComment] runs inside the [try] of [postComment], before the
    request. *)
Definition postComment (rt : runtime) (now : Z) (issueNum : positive)
           (assignees : list string) (labelString : string) : list call :=
  [createComment issueNum assignees labelString (instructions rt now assignees labelString)].

(** The conditions of the [if ... else if] chain of [main], in order. *)
Definition isUpdated (responseObject : response) : bool :=
  negb (result responseObject) && (labels responseObject === statusUpdatedLabel).

Definition isToUpdate (responseObject : response) : bool :=
  result responseObject && (labels responseObject === toUpdateLabel).

Definition isInactive (responseObject : response) : bool :=
  result responseObject && (labels responseObject === inactiveLabel).

Definition isRecentlyAssigned (responseObject : response) : bool :=
  negb (result responseObject) && (labels responseObject === "").

Definition dispatch (rt : runtime) (now : Z) (issueNum : positive) (assignees : list string)
           (responseObject : response) : list call :=
  if isUpdated responseObject then
    removeLabels issueNum [toUpdateLabel; inactiveLabel]
    ++ addLabels issueNum [labels responseObject]
  else if isToUpdate responseObject then
    removeLabels issueNum [statusUpdatedLabel; inactiveLabel]
    ++ addLabels issueNum [labels responseObject]
    ++ postComment rt now issueNum assignees toUpdateLabel
  else if isInactive responseObject then
    removeLabels issueNum [toUpdateLabel; statusUpdatedLabel]
    ++ addLabels issueNum [labels responseObject]
    ++ postComment rt now issueNum assignees inactiveLabel
  else if isRecentlyAssigned responseObject then
    removeLabels issueNum [toUpdateLabel; inactiveLabel; statusUpdatedLabel]
  else [].

(** The body of the [for await] loop of [main] for one issue, given the
    assignees and the timeline that were fetched for it. *)
Definition main_body (Date_parse : string -> option Z)
           (findLinkedIssue : string -> option positive) (rt : runtime)
           (now : Z) (issueNum : positive) (assignees : list string)
           (timeline : list timelineEvent) : completion (list call) :=
  if Nat.eqb (length assignees) 0 then Normal []
  else
    responseObject <- isTimelineOutdated Date_parse findLinkedIssue now timeline issueNum assignees ;;
    Normal (dispatch rt now issueNum assignees responseObject).

(** ** The classification as a variant *)

(** The specification names the decision by a variant.  The code encodes
    it in the [labels] string of the response: one of the three label
    constants, or the empty string for a recent assignment. *)
Inductive ClassificationResult : Type :=
| Updated
| NeedsUpdate
| Inactive
| RecentlyAssigned.

Definition classification (responseObject : response) : option ClassificationResult :=
  let l := labels responseObject in
  if l === statusUpdatedLabel then Some Updated
  else if l === toUpdateLabel then Some NeedsUpdate
  else if l === inactiveLabel then Some Inactive
  else if l === "" then Some RecentlyAssigned
  else None.

Definition classify (Date_parse : string -> option Z)
           (findLinkedIssue : string -> option positive)
           (timeline : list timelineEvent) (issueNum : positive)
           (assignees : list string) (now : Z) : completion (option ClassificationResult) :=
  fmap classification
       (isTimelineOutdated Date_parse findLinkedIssue now timeline issueNum assignees).

(** ** Sample externals

    A date parser for the format in which the API prints instants,
    [YYYY-MM-DDTHH:MM:SSZ], and a reader of texts of the form
    [<keyword> #<number>].  The theorems below hold for every parser and
    every reader; these two serve to run the classifier on examples. *)

Module Sample.

Definition digit (c : ascii) : option Z :=
  let n := Z.of_nat (nat_of_ascii c) in
  if (48 <=? n) && (n <=? 57) then Some (n - 48) else None.

Fixpoint number (acc : Z) (s : string) : option Z :=
  match s with
  | EmptyString => Some acc
  | String c s' =>
      match digit c with
      | Some d => number (10 * acc + d) s'
      | None => None
      end
  end.

(** The [len] digits of [s] from position [start]. *)
Definition field (s : string) (start len : nat) : option Z :=
  let f := substring start len s in
  if Nat.eqb (String.length f) len then number 0 f else None.

Definition isLeap (y : Z) : bool :=
  ((y mod 4 =? 0) && negb (y mod 100 =? 0)) || (y mod 400 =? 0).

Definition daysInMonth (y m : Z) : Z :=
  if m =? 2 then (if isLeap y then 29 else 28)
  else if (m =? 4) || (m =? 6) || (m =? 9) || (m =? 11) then 30
  else 31.

(** Days from 1970-01-01 to the given civil date. *)
Definition daysFromCivil (y m d : Z) : Z :=
  let y' := if m <=? 2 then y - 1 else y in
  let era := y' / 400 in
  let yoe := y' - era * 400 in
  let mp := (m + 9) mod 12 in
  let doy := (153 * mp + 2) / 5 + d - 1 in
  let doe := yoe * 365 + yoe / 4 - yoe / 100 + doy in
  era * 146097 + doe - 719468.

Definition separators (s : string) : bool :=
  (substring 4 1 s === "-") && (substring 7 1 s === "-")
  && (substring 10 1 s === "T") && (substring 13 1 s === ":")
  && (substring 16 1 s === ":") && (substring 19 1 s === "Z").

Definition Date_parse (s : string) : option Z :=
  if negb (Nat.eqb (String.length s) 20 && separators s) then None
  else
    match field s 0 4, field s 5 2, field s 8 2,
          field s 11 2, field s 14 2, field s 17 2 with
    | Some y, Some m, Some d, Some hh, Some mm, Some ss =>
        if (1 <=? m) && (m <=? 12) && (1 <=? d) && (d <=? daysInMonth y m)
           && (hh <=? 23) && (mm <=? 59) && (ss <=? 59)
        then Some (((daysFromCivil y m d * 24 + hh) * 60 + mm) * 60 * 1000 + ss * 1000)
        else None
    | _, _, _, _, _, _ => None
    end.

Definition keywords : list string :=
  ["close"; "closes"; "closed"; "fix"; "fixes"; "fixed";
   "resolve"; "resolves"; "resolved"].

(** The number after [keyword #] when the text is exactly that. *)
Definition numberAfter (keyword text : string) : option positive :=
  let head := keyword ++ " #" in
  if prefix head text then
    let digits := substring (String.length head) (String.length text) text in
    match digits, number 0 digits with
    | String _ _, Some n => if 0 <? n then Some (Z.to_pos n) else None
    | _, _ => None
    end
  else None.

Definition findLinkedIssue (text : string) : option positive :=
  fold_right (fun keyword found =>
                match numberAfter keyword text with
                | Some n => Some n
                | None => found
                end) None keywords.

(** 2024-01-15T00:00:00Z *)
Definition now : Z := 1705276800000.

Definition alice : option user := Some {| login := "alice" |}.
Definition bob : option user := Some {| login := "bob" |}.

Definition commented (who : option user) (updated created : option string) : timelineEvent :=
  {| event := "commented"; actor := who; assignee := None; source := None;
     updated_at := updated; created_at := created |}.

Definition assigned (by_ whom : option user) (created : option string) : timelineEvent :=
  {| event := "assigned"; actor := by_; assignee := whom; source := None;
     updated_at := None; created_at := created |}.

Definition crossReferenced (who : option user) (text : string) (created : option string)
  : timelineEvent :=
  {| event := "cross-referenced"; actor := who; assignee := None;
     source := Some {| body := text |};
     updated_at := created; created_at := created |}.

Definition labeled (who : option user) (created : option string) : timelineEvent :=
  {| event := "labeled"; actor := who; assignee := None; source := None;
     updated_at := None; created_at := created |}.

(** Timelines for the examples; [now] is 2024-01-15T00:00:00Z, so the
    7-day cutoff is 2024-01-08T00:00:00Z and the 14-day cutoff
    2024-01-01T00:00:00Z. *)

Definition crossReferencedLongAgo : list timelineEvent :=
  [assigned alice alice (Some "2023-11-01T09:00:00Z");
   crossReferenced alice "fixes #42" (Some "2023-11-20T09:00:00Z");
   commented bob None (Some "2023-12-01T09:00:00Z")].

Definition commentedTwoDaysAgo : list timelineEvent :=
  [assigned bob alice (Some "2023-12-01T09:00:00Z");
   commented alice None (Some "2024-01-13T00:00:00Z")].

Definition assignedThreeDaysAgo : list timelineEvent :=
  [commented alice None (Some "2024-01-02T00:00:00Z");
   assigned bob alice (Some "2024-01-12T00:00:00Z")].

Definition commentedTenDaysAgo : list timelineEvent :=
  [assigned alice alice (Some "2023-12-20T00:00:00Z");
   commented alice None (Some "2024-01-05T00:00:00Z")].

Definition nothingByAssignee : list timelineEvent :=
  [labeled bob (Some "2024-01-14T00:00:00Z");
   commented bob None (Some "2024-01-14T08:00:00Z")].

Definition commentedAtCutoff : list timelineEvent :=
  [commented alice None (Some "2024-01-08T00:00:00Z")].

Definition editedComment : timelineEvent :=
  commented alice (Some "2024-01-14T10:00:00Z") (Some "2023-12-01T09:00:00Z").

Definition oldComment : timelineEvent :=
  commented alice None (Some "2024-01-05T00:00:00Z").

Definition newComment : timelineEvent :=
  commented alice None (Some "2024-01-13T00:00:00Z").

Definition malformedComment : timelineEvent :=
  commented alice None (Some "not a date").

Definition template : string :=
  "Hello ${assignees}, please update before ${cutoffTime}; label: ${label}. (${label})".

(** A runtime that accepts the options of [formatComment], as Node 12
    does; it prints the 7-day cutoff of the examples, 2024-01-08T00:00:00Z,
    the one instant that they format. *)
Definition node12 : runtime :=
  {| readFileSync := Some template;
     toLocaleString := fun cutoffTime =>
       if cutoffTime =? 1704672000000 then Some "Sunday, January 7, 2024 at 4:00 PM PST"
       else Some "another instant" |}.

(** A runtime that follows ECMA-402 and rejects the options. *)
Definition ecma402 : runtime :=
  {| readFileSync := Some template; toLocaleString := fun _ => None |}.

(** The template file cannot be read. *)
Definition noTemplate : runtime :=
  {| readFileSync := None;
     toLocaleString := fun _ => Some "Sunday, January 7, 2024 at 4:00 PM PST" |}.

End Sample.

(** ** Reading a timeline *)

Section Reading.

Variable findLinkedIssue : string -> option positive.
Variable issueNum : positive.
Variable assignees : list string.

Definition loginIn (who : option user) : bool :=
  match who with
  | Some a => includes assignees (login a)
  | None => false
  end.

Definition linksTo (e : timelineEvent) : bool :=
  match source e with
  | Some src =>
      match findLinkedIssue (body src) with
      | Some n => Pos.eqb n issueNum
      | None => false
      end
  | None => false
  end.

(** A cross-reference whose text names the issue and whose actor is an
    assignee. *)
Definition crossReferencedByAssignee (e : timelineEvent) : bool :=
  (event e === "cross-referenced") && linksTo e && loginIn (actor e).

(** A comment whose actor is an assignee. *)
Definition commentedByAssignee (e : timelineEvent) : bool :=
  (event e === "commented") && loginIn (actor e).

(** An assignment whose target is an assignee. *)
Definition assignedToAssignee (e : timelineEvent) : bool :=
  (event e === "assigned") && loginIn (assignee e).

(** The shape the API gives to events: every event has an actor, an
    assignment has an assignee, a cross-reference has a source. *)
Definition wf_event (e : timelineEvent) : bool :=
  match actor e with
  | Some _ =>
      (if event e === "assigned" then
         match assignee e with Some _ => true | None => false end
       else true)
      && (if event e === "cross-referenced" then
            match source e with Some _ => true | None => false end
          else true)
  | None => false
  end.

Definition wf_timeline (timeline : list timelineEvent) : bool :=
  forallb wf_event timeline.

(** The timestamp of the latest event of the timeline (the one nearest to
    its end) that satisfies [p] and carries a timestamp. *)
Definition timestampOfLast (p : timelineEvent -> bool) (timeline : list timelineEvent)
  : option string :=
  match find (fun e => p e && truthy (eventTimestampOf e)) (rev timeline) with
  | Some e => eventTimestampOf e
  | None => None
  end.

Definition lastCommentOf (timeline : list timelineEvent) : option string :=
  timestampOfLast commentedByAssignee timeline.

Definition lastAssignedOf (timeline : list timelineEvent) : option string :=
  timestampOfLast assignedToAssignee timeline.

(** What one iteration does to one of the two locals. *)
Definition track (p : timelineEvent -> bool) (ts : option string) (e : timelineEvent)
  : option string :=
  if p e && negb (truthy ts) then eventTimestampOf e else ts.

Definition step (st : locals) (e : timelineEvent) : locals :=
  {| lastAssignedTimestamp := track assignedToAssignee (lastAssignedTimestamp st) e;
     lastCommentTimestamp := track commentedByAssignee (lastCommentTimestamp st) e |}.

(** A falsy timestamp counts as none. *)
Definition norm (ts : option string) : option string :=
  if truthy ts then ts else None.

End Reading.

(** ** Chronological order *)

Section Chronology.

Variable Date_parse : string -> option Z.

(** The instant of an event, when it carries a timestamp that parses. *)
Definition instant (e : timelineEvent) : option Z :=
  match eventTimestampOf e with
  | Some s => if truthy (Some s) then Date_parse s else None
  | None => None
  end.

(** The timestamp exists, parses, and is no older than [days] days
    before [now]. *)
Definition withinDays (now days : Z) (ts : option string) : bool :=
  match ts with
  | Some s =>
      match Date_parse s with
      | Some t => now - days * msPerDay <=? t
      | None => false
      end
  | None => false
  end.

(** The instant of the event is no older than [cutoffTime]. *)
Definition since (cutoffTime : Z) (e : timelineEvent) : bool :=
  match instant e with
  | Some t => cutoffTime <=? t
  | None => false
  end.

(** [a] is not later than [b]; an event without a readable instant counts
    as older than any other. *)
Definition notLater (a b : timelineEvent) : bool :=
  match instant a, instant b with
  | None, _ => true
  | Some _, None => false
  | Some x, Some y => x <=? y
  end.

(** The timeline lists its events from the oldest to the newest. *)
Fixpoint chronological (timeline : list timelineEvent) : bool :=
  match timeline with
  | [] => true
  | e :: rest => forallb (notLater e) rest && chronological rest
  end.

(** Two events of the same kind at the same instant. *)
Definition tie (a b : timelineEvent) : bool :=
  (event a === event b)
  && match instant a, instant b with
     | Some x, Some y => x =? y
     | None, None => true
     | _, _ => false
     end.

Fixpoint tieFree (timeline : list timelineEvent) : bool :=
  match timeline with
  | [] => true
  | e :: rest => forallb (fun e' => negb (tie e e')) rest && tieFree rest
  end.

End Chronology.

(** ** Events that count *)

Section Relevance.

Variable findLinkedIssue : string -> option positive.
Variable issueNum : positive.
Variable assignees : list string.

(** A qualifying cross-reference, or a comment by an assignee or an
    assignment of one that carries a timestamp. *)
Definition relevant (e : timelineEvent) : bool :=
  crossReferencedByAssignee findLinkedIssue issueNum assignees e
  || ((commentedByAssignee assignees e || assignedToAssignee assignees e)
      && truthy (eventTimestampOf e)).

Definition isCrossReference (e : timelineEvent) : bool :=
  event e === "cross-referenced".

End Relevance.

(** ** Fetching *)

(** The answer of the API to a request: its [data], or a rejected promise,
    which [await] turns into a thrown error. *)
Inductive reply (A : Type) : Type :=
| Data (data : A)
| Rejected.

Arguments Data {A} data.
Arguments Rejected {A}.

(** What leaves a function of the job uncaught: an error of the classifier,
    or the ReferenceError of a read of an undeclared variable. *)
Inductive exception : Type :=
| Raised (e : jsError)
| ReferenceError (name : string).

(** A project card; [content_url] is [None] when the card has no such
    property (a note). *)
Record card : Type := { content_url : option string }.

(** [s.split(sep)] for a separator of one character. *)
Fixpoint split (sep : ascii) (s : string) : list string :=
  match s with
  | EmptyString => [EmptyString]
  | String c s' =>
      if Ascii.eqb c sep then EmptyString :: split sep s'
      else match split sep s' with
           | segment :: segments => String c segment :: segments
           | [] => [String c EmptyString]
           end
  end.

(** [arr.pop()] of the array of a split, which is never empty. *)
Definition pop (arr : list string) : string := last arr EmptyString.

(** The [for (let card of results.data)] loop: what one page yields. *)
Definition yieldsOfPage (data : list card) : list string :=
  flat_map (fun card =>
              match content_url card with
              | Some url => [pop (split "/" url)]
              | None => []
              end) data.

Section Column.

(** [github.projects.listCards] for the column, by page. *)
Variable listCards : nat -> reply (list card).

(** [while (page < 100)] with [page = 100 - remaining]: the values yielded
    from [page] on.  A rejected request is caught, and [finally] moves to
    the next page. *)
Fixpoint yieldsFrom (remaining : nat) : list string :=
  match remaining with
  | O => []
  | S remaining' =>
      let page := (100 - remaining)%nat in
      match listCards page with
      | Data data =>
          if Nat.eqb (length data) 0 then []
          else (yieldsOfPage data ++ yieldsFrom remaining')%list
      | Rejected => yieldsFrom remaining'
      end
  end.

(** The values that the generator yields, in order; [page] starts at 1. *)
Definition getIssueNumsFromColumn : list string := yieldsFrom 99.

End Column.

Section Timeline.

(** [github.issues.listEventsForTimeline] for the issue, by page. *)
Variable listEventsForTimeline : nat -> reply (list timelineEvent).

(** The [while (true)] loop of [getTimeline] from [page] on, for at most
    [fuel] requests; [None] when the fuel runs out.  The [catch] block reads
    the undeclared variable [error], which throws; [finally] runs and the
    ReferenceError leaves the function. *)
Fixpoint getTimelineFrom (fuel page : nat) (arra : list timelineEvent)
  : option (exception + list timelineEvent) :=
  match fuel with
  | O => None
  | S fuel' =>
      match listEventsForTimeline page with
      | Data data =>
          if Nat.eqb (length data) 0 then Some (inr arra)
          else getTimelineFrom fuel' (S page) (arra ++ data)
      | Rejected => Some (inl (ReferenceError "error"))
      end
  end.

Definition getTimeline (fuel : nat) : option (exception + list timelineEvent) :=
  getTimelineFrom fuel 1 [].

End Timeline.

Definition filterForAssigneesLogins (data : list user) : list string :=
  map login data.

(** [getAssignees] catches a rejected request and returns [null], here
    [None]. *)
Definition getAssignees (issue : reply (list user)) : option (list string) :=
  match issue with
  | Data assigneesData => Some (filterForAssigneesLogins assigneesData)
  | Rejected => None
  end.

(** ** The run *)


Definition added (calls : list call) : list string :=
  flat_map (fun c => match c with addLabelsCall _ labels => labels | _ => [] end) calls.

Definition commentsOf (calls : list call) : list string :=
  flat_map (fun c => match c with createComment _ _ labelString _ => [labelString] | _ => [] end)
           calls.

(** The bodies of the comments that a sequence really requests. *)
Definition bodiesOf (calls : list call) : list string :=
  flat_map (fun c => match c with createComment _ _ _ (Some body) => [body] | _ => [] end)
           calls.

(** A call without the text of its comment. *)
Definition forgetBody (c : call) : call :=
  match c with
  | createComment n assignees labelString _ => createComment n assignees labelString None
  | _ => c
  end.

Definition issueOf (c : call) : positive :=
  match c with
  | removeLabel n _ => n
  | addLabelsCall n _ => n
  | createComment n _ _ _ => n
  end.

(** How [main] ends: it returns, an exception leaves it, or the fuel of a
    timeline ran out. *)
Inductive ending : Type :=
| Returned
| Threw (e : exception)
| Pending.

Section Main.

Variable Date_parse : string -> option Z.
Variable findLinkedIssue : string -> option positive.
Variable rt : runtime.
Variable now : Z.

(** [github.issues.get] and [github.issues.listEventsForTimeline]. *)
Variable issues_get : positive -> reply (list user).
Variable listEventsForTimeline : positive -> nat -> reply (list timelineEvent).

(** The [for await] loop of [main] over the issue numbers that the
    generator yields: the requests sent and how the loop ends.  [null] has
    no [length]: when [getAssignees] returned [null] the test throws. *)
Fixpoint main (fuel : nat) (issueNums : list positive) : list call * ending :=
  match issueNums with
  | [] => ([], Returned)
  | issueNum :: rest =>
      match getAssignees (issues_get issueNum) with
      | None => ([], Threw (Raised TypeError))
      | Some assignees =>
          if Nat.eqb (length assignees) 0 then main fuel rest
          else
            match getTimeline (listEventsForTimeline issueNum) fuel with
            | None => ([], Pending)
            | Some (inl e) => ([], Threw e)
            | Some (inr timeline) =>
                match main_body Date_parse findLinkedIssue rt now issueNum assignees timeline with
                | Throw e => ([], Threw (Raised e))
                | Normal calls =>
                    let (later, e) := main fuel rest in
                    ((calls ++ later)%list, e)
                end
            end
      end
  end.

End Main.

(** ** Words for the properties of the run *)

(** The character [c] occurs in [s]. *)
Fixpoint mentions (c : ascii) (s : string) : bool :=
  match s with
  | EmptyString => false
  | String d s' => Ascii.eqb d c || mentions c s'
  end.

(** What the generator yields for the answer to one request. *)
Definition yieldsOfReply (r : reply (list card)) : list string :=
  match r with
  | Data data => yieldsOfPage data
  | Rejected => []
  end.

(** The answer is not an empty page. *)
Definition notEmptyPage {A : Type} (r : reply (list A)) : bool :=
  match r with
  | Data [] => false
  | _ => true
  end.

(** The answer is a page with at least one element. *)
Definition isPage {A : Type} (r : reply (list A)) : bool :=
  match r with
  | Data (_ :: _) => true
  | _ => false
  end.

(** The issue was fetched and has no assignee. *)
Definition unassigned (issue : reply (list user)) : bool :=
  match issue with
  | Data [] => true
  | _ => false
  end.

(** Data for the examples of the run. *)
Module SampleRun.

Definition issueUrl : string :=
  "https://api.github.com/repos/hackforla/website/issues/2607".

(** Three pages of cards: two issues and a note, a rejected request, one
    issue; then an empty page. *)
Definition listCards (page : nat) : reply (list card) :=
  match page with
  | 1%nat => Data [ {| content_url := Some issueUrl |};
                    {| content_url := None |};
                    {| content_url := Some "https://api.github.com/repos/hackforla/website/issues/2400" |} ]
  | 2%nat => Rejected
  | 3%nat => Data [ {| content_url := Some "https://api.github.com/repos/hackforla/website/issues/77" |} ]
  | _ => Data []
  end.

(** A column that never answers an empty page. *)
Definition endlessCards (page : nat) : reply (list card) :=
  Data [ {| content_url := Some "issues/1" |} ].

(** The timeline of an issue on two pages. *)
Definition twoPages (page : nat) : reply (list timelineEvent) :=
  match page with
  | 1%nat => Data [Sample.assigned Sample.bob Sample.alice (Some "2023-12-20T00:00:00Z")]
  | 2%nat => Data [Sample.commented Sample.alice None (Some "2024-01-05T00:00:00Z")]
  | _ => Data []
  end.

(** The second request for the timeline is rejected. *)
Definition secondPageFails (page : nat) : reply (list timelineEvent) :=
  match page with
  | 1%nat => Data [Sample.assigned Sample.bob Sample.alice (Some "2023-12-20T00:00:00Z")]
  | _ => Rejected
  end.

(** Every page holds an event. *)
Definition endlessTimeline (page : nat) : reply (list timelineEvent) :=
  Data [Sample.labeled Sample.bob (Some "2024-01-05T00:00:00Z")].

(** Issues 1 to 5: 1 is assigned to alice, 2 has no assignee, the
    assignees of 3 cannot be fetched, 4 is assigned to alice and the second
    page of its timeline is rejected, 5 is assigned to alice. *)
Definition issues_get (issueNum : positive) : reply (list user) :=
  match issueNum with
  | 2%positive => Data []
  | 3%positive => Rejected
  | _ => Data [ {| login := "alice" |} ]
  end.

Definition listEventsForTimeline (issueNum : positive) : nat -> reply (list timelineEvent) :=
  match issueNum with
  | 4%positive => secondPageFails
  | _ => twoPages
  end.

End SampleRun.

(** ** The loop, read declaratively *)

Section LoopFacts.

Variable Date_parse : string -> option Z.
Variable findLinkedIssue : string -> option positive.
Variable issueNum : positive.
Variable assignees : list string.

Local Abbreviation updatedByCrossReference :=
  {| result := true; labels := statusUpdatedLabel |}.
Local Abbreviation xref := (crossReferencedByAssignee findLinkedIssue issueNum assignees).
Local Abbreviation step' := (step assignees).

(** The [else if] of the loop loses nothing: an event that takes the
    comment branch is not an assignment. *)
Lemma kinds_exclusive (e : timelineEvent) :
  commentedByAssignee assignees e = true -> assignedToAssignee assignees e = false.
Proof.
  unfold commentedByAssignee, assignedToAssignee.
  intros H. apply andb_prop in H as [H _]. apply String.eqb_eq in H.
  rewrite H. reflexivity.
Qed.

Lemma loop_body_wf (i : nat) (e : timelineEvent) (st : locals) :
  wf_event e = true ->
  loop_body findLinkedIssue issueNum assignees i e st =
  if xref e then Normal (inl updatedByCrossReference)
  else Normal (inr (step' st e)).
Proof.
  unfold wf_event, loop_body, crossReferencedByAssignee, step, track,
    isLinkedIssue, isCommentByAssignees, linksTo, commentedByAssignee,
    assignedToAssignee, loginIn.
  destruct st as [la lc]; cbn [lastAssignedTimestamp lastCommentTimestamp].
  destruct (actor e) as [a|]; [|discriminate].
  destruct (event e === "cross-referenced") eqn:Ex;
    destruct (event e === "commented") eqn:Ec;
    destruct (event e === "assigned") eqn:Ea;
    try (apply String.eqb_eq in Ex; rewrite Ex in Ec; discriminate);
    try (apply String.eqb_eq in Ex; rewrite Ex in Ea; discriminate);
    try (apply String.eqb_eq in Ec; rewrite Ec in Ea; discriminate);
    destruct (assignee e) as [b|]; destruct (source e) as [src|];
    cbn; try discriminate; intros _.
  all: repeat match goal with
         | |- context [match findLinkedIssue ?t with _ => _ end] =>
             destruct (findLinkedIssue t)
         | |- context [Pos.eqb ?a ?b] => destruct (Pos.eqb a b)
         | |- context [includes ?l ?x] => destruct (includes l x)
         | |- context [Nat.eqb ?a ?b] => destruct (Nat.eqb a b)
         | |- context [truthy ?t] => destruct (truthy t)
         end; cbn; try reflexivity.
Qed.

Lemma firstn_snoc {A : Type} (l : list A) (i : nat) (x : A) :
  nth_error l i = Some x -> firstn (S i) l = (firstn i l ++ [x])%list.
Proof.
  revert i. induction l as [|y l IH]; intros [|i] H; cbn in H; try discriminate.
  - inversion H. reflexivity.
  - cbn [firstn app]. f_equal. apply (IH i H).
Qed.

(** The loop over a well-formed timeline: it returns as soon as it meets
    a qualifying cross-reference, and folds [step] otherwise. *)
Lemma for_loop_wf (timeline : list timelineEvent) (n : nat) (st : locals) :
  wf_timeline timeline = true ->
  (n <= length timeline)%nat ->
  for_loop findLinkedIssue timeline issueNum assignees n st =
  if existsb xref (firstn n timeline) then Normal (inl updatedByCrossReference)
  else Normal (inr (fold_left step' (rev (firstn n timeline)) st)).
Proof.
  intros Hwf. revert st. induction n as [|i IH]; intros st Hn.
  - reflexivity.
  - destruct (nth_error timeline i) as [e|] eqn:He.
    2:{ apply nth_error_None in He. lia. }
    cbn [for_loop]. rewrite He. cbn [prop bind].
    rewrite (firstn_snoc _ _ _ He), existsb_app, rev_app_distr.
    cbn [existsb rev app fold_left]. rewrite orb_false_r.
    assert (Hwe : wf_event e = true).
    { unfold wf_timeline in Hwf. rewrite forallb_forall in Hwf.
      apply Hwf. eapply nth_error_In; eassumption. }
    rewrite (loop_body_wf i e st Hwe).
    destruct (xref e) eqn:Hx; cbn [bind].
    + rewrite orb_true_r. reflexivity.
    + rewrite orb_false_r. apply IH. lia.
Qed.

Lemma fold_step_comment (l : list timelineEvent) (st : locals) :
  lastCommentTimestamp (fold_left step' l st) =
  fold_left (track (commentedByAssignee assignees)) l (lastCommentTimestamp st).
Proof.
  revert st. induction l as [|e l IH]; intros st; [reflexivity|].
  cbn [fold_left]. rewrite IH. reflexivity.
Qed.

Lemma fold_step_assigned (l : list timelineEvent) (st : locals) :
  lastAssignedTimestamp (fold_left step' l st) =
  fold_left (track (assignedToAssignee assignees)) l (lastAssignedTimestamp st).
Proof.
  revert st. induction l as [|e l IH]; intros st; [reflexivity|].
  cbn [fold_left]. rewrite IH. reflexivity.
Qed.

(** Once a local holds a timestamp it keeps it; until then it takes the
    timestamp of the first event met that satisfies [p] and carries one. *)
Lemma fold_track (p : timelineEvent -> bool) (l : list timelineEvent) (ts : option string) :
  norm (fold_left (track p) l ts) =
  if truthy ts then ts
  else match find (fun e => p e && truthy (eventTimestampOf e)) l with
       | Some e => eventTimestampOf e
       | None => None
       end.
Proof.
  revert ts. induction l as [|e l IH]; intros ts.
  - cbn. unfold norm. destruct (truthy ts); reflexivity.
  - cbn [fold_left find]. rewrite IH. unfold track.
    destruct (truthy ts) eqn:Ht.
    + rewrite andb_false_r, Ht. reflexivity.
    + rewrite andb_true_r. destruct (p e); cbn [andb].
      * destruct (truthy (eventTimestampOf e)); reflexivity.
      * rewrite Ht. reflexivity.
Qed.

Lemma recent_norm (ts : option string) (cutoffTime : Z) :
  recent Date_parse (norm ts) cutoffTime = recent Date_parse ts cutoffTime.
Proof.
  unfold norm. destruct (truthy ts) eqn:Ht; [reflexivity|].
  unfold recent. destruct ts; [rewrite Ht|]; reflexivity.
Qed.

Lemma decide_norm (now : Z) (la lc : option string) :
  decide Date_parse now
         {| lastAssignedTimestamp := la; lastCommentTimestamp := lc |} =
  decide Date_parse now
         {| lastAssignedTimestamp := norm la; lastCommentTimestamp := norm lc |}.
Proof.
  unfold decide. cbn [lastAssignedTimestamp lastCommentTimestamp].
  rewrite !recent_norm. reflexivity.
Qed.

(** The classifier on a well-formed timeline: it completes normally, with
    the cross-reference response when some event is a qualifying
    cross-reference, and otherwise with the decision on the timestamps of
    the latest comment by an assignee and of the latest assignment of
    one. *)
Lemma isTimelineOutdated_wf (now : Z) (timeline : list timelineEvent) :
  wf_timeline timeline = true ->
  isTimelineOutdated Date_parse findLinkedIssue now timeline issueNum assignees =
  Normal (if existsb xref timeline then updatedByCrossReference
          else decide Date_parse now
                 {| lastAssignedTimestamp := lastAssignedOf assignees timeline;
                    lastCommentTimestamp := lastCommentOf assignees timeline |}).
Proof.
  intros Hwf. unfold isTimelineOutdated.
  rewrite (for_loop_wf timeline _ _ Hwf (le_n _)), firstn_all.
  destruct (existsb xref timeline); cbn [bind]; [reflexivity|].
  f_equal.
  destruct (fold_left step' (rev timeline) _) as [la lc] eqn:Hf.
  rewrite decide_norm. f_equal.
  assert (Ha := fold_step_assigned (rev timeline)
                  {| lastAssignedTimestamp := None; lastCommentTimestamp := None |}).
  assert (Hc := fold_step_comment (rev timeline)
                  {| lastAssignedTimestamp := None; lastCommentTimestamp := None |}).
  rewrite Hf in Ha, Hc. cbn [lastAssignedTimestamp lastCommentTimestamp] in Ha, Hc.
  rewrite Ha, Hc, !fold_track. reflexivity.
Qed.

End LoopFacts.

(** ** Timelines in chronological order *)

Section ChronologyFacts.

Variable Date_parse : string -> option Z.

Lemma recent_since (e : timelineEvent) (cutoffTime : Z) :
  recent Date_parse (eventTimestampOf e) cutoffTime = since Date_parse cutoffTime e.
Proof.
  unfold recent, since, instant, isMomentRecent.
  destruct (eventTimestampOf e) as [s|]; [|reflexivity].
  destruct (truthy (Some s)); [|reflexivity].
  cbn [andb]. destruct (Date_parse s); [|reflexivity].
  destruct (cutoffTime <=? z); reflexivity.
Qed.

Lemma since_truthy (e : timelineEvent) (cutoffTime : Z) :
  since Date_parse cutoffTime e = true -> truthy (eventTimestampOf e) = true.
Proof.
  unfold since, instant. destruct (eventTimestampOf e) as [s|]; [|discriminate].
  destruct (truthy (Some s)); [reflexivity|discriminate].
Qed.

Lemma since_notLater (a b : timelineEvent) (cutoffTime : Z) :
  notLater Date_parse a b = true ->
  since Date_parse cutoffTime a = true -> since Date_parse cutoffTime b = true.
Proof.
  unfold notLater, since.
  destruct (instant Date_parse a) as [x|]; [|discriminate].
  destruct (instant Date_parse b) as [y|]; [|discriminate].
  rewrite !Z.leb_le. lia.
Qed.

Lemma find_snoc {A : Type} (f : A -> bool) (l : list A) (x : A) :
  find f (l ++ [x]) =
  match find f l with
  | Some y => Some y
  | None => if f x then Some x else None
  end.
Proof.
  induction l as [|y l IH]; cbn; [reflexivity|].
  destruct (f y); [reflexivity|apply IH].
Qed.

Lemma timestampOfLast_cons (p : timelineEvent -> bool) (e : timelineEvent)
      (rest : list timelineEvent) :
  timestampOfLast p (e :: rest) =
  match find (fun x => p x && truthy (eventTimestampOf x)) (rev rest) with
  | Some x => eventTimestampOf x
  | None => if p e && truthy (eventTimestampOf e) then eventTimestampOf e else None
  end.
Proof.
  unfold timestampOfLast. cbn [rev]. rewrite find_snoc.
  destruct (find _ (rev rest)); [reflexivity|].
  destruct (p e && truthy (eventTimestampOf e)); reflexivity.
Qed.

(** In a chronological timeline the latest event satisfying [p] is recent
    exactly when some event satisfying [p] is. *)
Lemma chronological_last (p : timelineEvent -> bool) (cutoffTime : Z)
      (timeline : list timelineEvent) :
  chronological Date_parse timeline = true ->
  recent Date_parse (timestampOfLast p timeline) cutoffTime =
  existsb (fun e => p e && since Date_parse cutoffTime e) timeline.
Proof.
  induction timeline as [|e rest IH]; intros Hc; [reflexivity|].
  cbn [chronological] in Hc. apply andb_prop in Hc as [Hall Hrest].
  specialize (IH Hrest). rewrite timestampOfLast_cons. cbn [existsb].
  unfold timestampOfLast in IH.
  destruct (find _ (rev rest)) as [x|] eqn:Hf.
  - rewrite IH.
    destruct (p e && since Date_parse cutoffTime e) eqn:He; [|reflexivity].
    cbn [orb]. apply andb_prop in He as [_ He].
    apply find_some in Hf as [Hin Hx]. apply in_rev in Hin.
    apply andb_prop in Hx as [Hpx _].
    apply existsb_exists. exists x. split; [exact Hin|].
    rewrite Hpx. cbn [andb].
    rewrite forallb_forall in Hall.
    exact (since_notLater e x cutoffTime (Hall x Hin) He).
  - rewrite <- IH. cbn [recent]. rewrite orb_false_r.
    destruct (p e) eqn:Hp; cbn [andb].
    + destruct (truthy (eventTimestampOf e)) eqn:Ht.
      * apply recent_since.
      * destruct (since Date_parse cutoffTime e) eqn:Hs; [|reflexivity].
        apply since_truthy in Hs. congruence.
    + reflexivity.
Qed.

Lemma existsb_Permutation {A : Type} (f : A -> bool) (l l' : list A) :
  Permutation l l' -> existsb f l = existsb f l'.
Proof.
  induction 1 as [|x l l' _ IH|x y l|l l' l'' _ IH1 _ IH2]; cbn.
  - reflexivity.
  - rewrite IH. reflexivity.
  - destruct (f x), (f y); reflexivity.
  - congruence.
Qed.

Lemma forallb_Permutation {A : Type} (f : A -> bool) (l l' : list A) :
  Permutation l l' -> forallb f l = forallb f l'.
Proof.
  induction 1 as [|x l l' _ IH|x y l|l l' l'' _ IH1 _ IH2]; cbn.
  - reflexivity.
  - rewrite IH. reflexivity.
  - destruct (f x), (f y); reflexivity.
  - congruence.
Qed.

End ChronologyFacts.

(** ** The decision rules *)

Section Rules.

Variable Date_parse : string -> option Z.
Variable findLinkedIssue : string -> option positive.
Variable issueNum : positive.
Variable assignees : list string.
Variable rt : runtime.

Local Abbreviation xref := (crossReferencedByAssignee findLinkedIssue issueNum assignees).
Local Abbreviation outdated now timeline :=
  (isTimelineOutdated Date_parse findLinkedIssue now timeline issueNum assignees).
Local Abbreviation classify' timeline now :=
  (classify Date_parse findLinkedIssue timeline issueNum assignees now).

Lemma timestampOfLast_some (p : timelineEvent -> bool) (timeline : list timelineEvent)
      (s : string) :
  timestampOfLast p timeline = Some s ->
  exists e, In e timeline /\ p e = true /\ eventTimestampOf e = Some s
            /\ truthy (Some s) = true.
Proof.
  unfold timestampOfLast.
  destruct (find _ (rev timeline)) as [e|] eqn:Hf; [|discriminate].
  intros Hs. apply find_some in Hf as [Hin Hq]. apply in_rev in Hin.
  apply andb_prop in Hq as [Hp Ht]. rewrite Hs in Ht.
  exists e. auto.
Qed.

Lemma timestampOfLast_none (p : timelineEvent -> bool) (timeline : list timelineEvent) :
  existsb p timeline = false -> timestampOfLast p timeline = None.
Proof.
  intros Hn. unfold timestampOfLast.
  destruct (find _ (rev timeline)) as [e|] eqn:Hf; [|reflexivity].
  apply find_some in Hf as [Hin Hq]. apply in_rev in Hin.
  apply andb_prop in Hq as [Hp _].
  assert (Ht : existsb p timeline = true) by (apply existsb_exists; eauto).
  congruence.
Qed.

(** The latest event of the timeline that satisfies [p], when it carries
    a timestamp, is the one [timestampOfLast] reads. *)
Lemma timestampOfLast_split (p : timelineEvent -> bool)
      (before after : list timelineEvent) (c : timelineEvent) :
  p c = true -> truthy (eventTimestampOf c) = true -> existsb p after = false ->
  timestampOfLast p (before ++ c :: after) = eventTimestampOf c.
Proof.
  intros Hp Ht Hafter. unfold timestampOfLast.
  rewrite rev_app_distr. cbn [rev]. rewrite <- app_assoc. cbn [app].
  assert (Hnone : forall l, existsb p l = false ->
              forall l', find (fun e => p e && truthy (eventTimestampOf e)) (l ++ l') =
                         find (fun e => p e && truthy (eventTimestampOf e)) l').
  { induction l as [|x l IH]; cbn; intros Hl l'; [reflexivity|].
    apply orb_false_elim in Hl as [Hx Hl]. rewrite Hx. cbn [andb]. auto. }
  rewrite Hnone.
  - cbn [find]. rewrite Hp, Ht. reflexivity.
  - rewrite <- (existsb_Permutation p _ _ (Permutation_rev after)). exact Hafter.
Qed.

Lemma recent_last (p : timelineEvent -> bool) (timeline : list timelineEvent)
      (now days : Z) :
  recent Date_parse (timestampOfLast p timeline) (cutoff now days) =
  withinDays Date_parse now days (timestampOfLast p timeline).
Proof.
  destruct (timestampOfLast p timeline) as [s|] eqn:Hs; [|reflexivity].
  apply timestampOfLast_some in Hs as (e & _ & _ & _ & Ht).
  unfold recent, withinDays, isMomentRecent, cutoff. rewrite Ht. cbn [andb].
  destruct (Date_parse s); [|reflexivity].
  destruct (_ <=? _); reflexivity.
Qed.

(** The decision, with the windows read as in the specification. *)
Lemma decide_last (now : Z) (timeline : list timelineEvent) :
  decide Date_parse now
         {| lastAssignedTimestamp := lastAssignedOf assignees timeline;
            lastCommentTimestamp := lastCommentOf assignees timeline |} =
  if withinDays Date_parse now 7 (lastCommentOf assignees timeline) then
    {| result := false; labels := statusUpdatedLabel |}
  else if withinDays Date_parse now 7 (lastAssignedOf assignees timeline) then
    {| result := false; labels := "" |}
  else if withinDays Date_parse now 14 (lastCommentOf assignees timeline)
          || withinDays Date_parse now 14 (lastAssignedOf assignees timeline) then
    {| result := true; labels := toUpdateLabel |}
  else
    {| result := true; labels := inactiveLabel |}.
Proof.
  unfold decide, sevenDayCutoffTime, fourteenDayCutoffTime, commentByDays,
    inactiveUpdatedByDays, lastAssignedOf, lastCommentOf.
  cbn [lastAssignedTimestamp lastCommentTimestamp].
  rewrite !recent_last. reflexivity.
Qed.

Lemma outdated_no_xref (now : Z) (timeline : list timelineEvent) :
  wf_timeline timeline = true ->
  existsb xref timeline = false ->
  outdated now timeline =
  Normal (decide Date_parse now
            {| lastAssignedTimestamp := lastAssignedOf assignees timeline;
               lastCommentTimestamp := lastCommentOf assignees timeline |}).
Proof.
  intros Hwf Hx.
  rewrite (isTimelineOutdated_wf Date_parse findLinkedIssue issueNum assignees now timeline Hwf).
  rewrite Hx. reflexivity.
Qed.

Lemma outdated_xref (now : Z) (timeline : list timelineEvent) :
  wf_timeline timeline = true ->
  existsb xref timeline = true ->
  outdated now timeline = Normal {| result := true; labels := statusUpdatedLabel |}.
Proof.
  intros Hwf Hx.
  rewrite (isTimelineOutdated_wf Date_parse findLinkedIssue issueNum assignees now timeline Hwf).
  rewrite Hx. reflexivity.
Qed.

Lemma classify_of (now : Z) (timeline : list timelineEvent) (r : response) :
  outdated now timeline = Normal r ->
  classify' timeline now = Normal (classification r).
Proof.
  unfold classify. intros H. rewrite H. reflexivity.
Qed.

(** C1.  A timeline that contains a cross-referenced event whose linked
    text names the issue and whose actor is an assignee is classified
    Updated: the classifier returns [{result: true, labels: 'Status: Updated'}],
    whatever the instant [now], whatever the date parser makes of the
    timestamps, and whatever the other events are. *)
Theorem cross_reference_is_Updated (now : Z) (timeline : list timelineEvent) :
  wf_timeline timeline = true ->
  existsb xref timeline = true ->
  outdated now timeline = Normal {| result := true; labels := statusUpdatedLabel |}
  /\ classify' timeline now = Normal (Some Updated).
Proof.
  intros Hwf Hx. pose proof (outdated_xref now timeline Hwf Hx) as H.
  split; [exact H|]. rewrite (classify_of _ _ _ H). reflexivity.
Qed.

Lemma includes_nonempty (x : string) :
  includes assignees x = true -> Nat.eqb (length assignees) 0 = false.
Proof. destruct assignees; [discriminate|reflexivity]. Qed.

Lemma xref_nonempty (timeline : list timelineEvent) :
  existsb xref timeline = true -> Nat.eqb (length assignees) 0 = false.
Proof.
  intros H. apply existsb_exists in H as (e & _ & He).
  unfold crossReferencedByAssignee, loginIn in He.
  apply andb_prop in He as [_ He].
  destruct (actor e) as [a|]; [|discriminate].
  exact (includes_nonempty _ He).
Qed.

(** C2.  On the cross-reference path the classifier returns
    [{result: true, labels: 'Status: Updated'}]; none of the four conditions
    that [main] tests holds for this response, and the iteration of [main]
    for the issue sends no request: no label is added or removed and no
    comment is posted. *)
Theorem cross_reference_changes_nothing (now : Z) (timeline : list timelineEvent) :
  wf_timeline timeline = true ->
  existsb xref timeline = true ->
  outdated now timeline = Normal {| result := true; labels := statusUpdatedLabel |}
  /\ isUpdated {| result := true; labels := statusUpdatedLabel |} = false
  /\ isToUpdate {| result := true; labels := statusUpdatedLabel |} = false
  /\ isInactive {| result := true; labels := statusUpdatedLabel |} = false
  /\ isRecentlyAssigned {| result := true; labels := statusUpdatedLabel |} = false
  /\ main_body Date_parse findLinkedIssue rt now issueNum assignees timeline = Normal [].
Proof.
  intros Hwf Hx. pose proof (outdated_xref now timeline Hwf Hx) as H.
  repeat split; try reflexivity; [exact H|].
  unfold main_body. rewrite (xref_nonempty timeline Hx), H. reflexivity.
Qed.

Lemma recent_comment_rule (now : Z) (timeline : list timelineEvent) :
  wf_timeline timeline = true ->
  existsb xref timeline = false ->
  withinDays Date_parse now 7 (lastCommentOf assignees timeline) = true ->
  outdated now timeline = Normal {| result := false; labels := statusUpdatedLabel |}.
Proof.
  intros Hwf Hx Hc.
  rewrite (outdated_no_xref now timeline Hwf Hx), decide_last, Hc. reflexivity.
Qed.

(** C5.  Without a qualifying cross-reference, when the latest comment by
    an assignee is within 7 days of [now] the issue is classified Updated,
    whatever the assignments are: this is the first rule after the
    cross-reference check. *)
Theorem recent_comment_is_Updated (now : Z) (timeline : list timelineEvent) :
  wf_timeline timeline = true ->
  existsb xref timeline = false ->
  withinDays Date_parse now 7 (lastCommentOf assignees timeline) = true ->
  outdated now timeline = Normal {| result := false; labels := statusUpdatedLabel |}
  /\ classify' timeline now = Normal (Some Updated).
Proof.
  intros Hwf Hx Hc. pose proof (recent_comment_rule now timeline Hwf Hx Hc) as H.
  split; [exact H|]. rewrite (classify_of _ _ _ H). reflexivity.
Qed.

Lemma no_recent_comment (now days : Z) (timeline : list timelineEvent) :
  existsb (fun e => commentedByAssignee assignees e
                    && withinDays Date_parse now days (eventTimestampOf e)) timeline = false ->
  withinDays Date_parse now days (lastCommentOf assignees timeline) = false.
Proof.
  intros Hn. destruct (lastCommentOf assignees timeline) as [s|] eqn:Hs; [|reflexivity].
  apply timestampOfLast_some in Hs as (e & Hin & Hp & He & _).
  destruct (withinDays Date_parse now days (Some s)) eqn:Hw; [|reflexivity].
  assert (Ht : existsb (fun e => commentedByAssignee assignees e
                    && withinDays Date_parse now days (eventTimestampOf e)) timeline = true).
  { apply existsb_exists. exists e. rewrite Hp, He, Hw. auto. }
  congruence.
Qed.

Lemma lastAssigned_nonempty (timeline : list timelineEvent) (s : string) :
  lastAssignedOf assignees timeline = Some s -> Nat.eqb (length assignees) 0 = false.
Proof.
  intros Hs. apply timestampOfLast_some in Hs as (e & _ & Hp & _).
  unfold assignedToAssignee, loginIn in Hp. apply andb_prop in Hp as [_ Hp].
  destruct (assignee e) as [a|]; [|discriminate].
  exact (includes_nonempty _ Hp).
Qed.

(** C6.  Without a qualifying cross-reference and without a comment by an
    assignee within 7 days of [now], when the latest assignment of an
    assignee is within 7 days of [now] the issue is classified
    RecentlyAssigned, the response [{result: false, labels: ''}], for which
    [main] removes the three status labels and adds none. *)
Theorem recent_assignment_is_RecentlyAssigned (now : Z) (timeline : list timelineEvent) :
  wf_timeline timeline = true ->
  existsb xref timeline = false ->
  existsb (fun e => commentedByAssignee assignees e
                    && withinDays Date_parse now 7 (eventTimestampOf e)) timeline = false ->
  withinDays Date_parse now 7 (lastAssignedOf assignees timeline) = true ->
  outdated now timeline = Normal {| result := false; labels := "" |}
  /\ classify' timeline now = Normal (Some RecentlyAssigned)
  /\ main_body Date_parse findLinkedIssue rt now issueNum assignees timeline =
     Normal [removeLabel issueNum toUpdateLabel;
             removeLabel issueNum inactiveLabel;
             removeLabel issueNum statusUpdatedLabel].
Proof.
  intros Hwf Hx Hc Ha. apply no_recent_comment in Hc.
  assert (H : outdated now timeline = Normal {| result := false; labels := "" |}).
  { rewrite (outdated_no_xref now timeline Hwf Hx), decide_last, Hc, Ha. reflexivity. }
  split; [exact H|]. split; [rewrite (classify_of _ _ _ H); reflexivity|].
  unfold main_body. rewrite H.
  destruct (lastAssignedOf assignees timeline) as [s|] eqn:Hs; [|discriminate].
  rewrite (lastAssigned_nonempty timeline s Hs). reflexivity.
Qed.

(** C7.  When neither 7-day rule matched (the latest comment by an
    assignee and the latest assignment of one are both not within 7 days of
    [now]) and one of the two is within 14 days of [now], the issue is
    classified NeedsUpdate. *)
Theorem fortnight_is_NeedsUpdate (now : Z) (timeline : list timelineEvent) :
  wf_timeline timeline = true ->
  existsb xref timeline = false ->
  withinDays Date_parse now 7 (lastCommentOf assignees timeline) = false ->
  withinDays Date_parse now 7 (lastAssignedOf assignees timeline) = false ->
  withinDays Date_parse now 14 (lastCommentOf assignees timeline)
  || withinDays Date_parse now 14 (lastAssignedOf assignees timeline) = true ->
  outdated now timeline = Normal {| result := true; labels := toUpdateLabel |}
  /\ classify' timeline now = Normal (Some NeedsUpdate).
Proof.
  intros Hwf Hx Hc Ha H14.
  assert (H : outdated now timeline = Normal {| result := true; labels := toUpdateLabel |}).
  { rewrite (outdated_no_xref now timeline Hwf Hx), decide_last, Hc, Ha, H14. reflexivity. }
  split; [exact H|]. rewrite (classify_of _ _ _ H). reflexivity.
Qed.

(** C8.  A timeline, the empty one included, with no qualifying
    cross-reference, no comment by an assignee and no assignment of an
    assignee is classified Inactive. *)
Theorem no_activity_is_Inactive (now : Z) (timeline : list timelineEvent) :
  wf_timeline timeline = true ->
  existsb xref timeline = false ->
  existsb (commentedByAssignee assignees) timeline = false ->
  existsb (assignedToAssignee assignees) timeline = false ->
  outdated now timeline = Normal {| result := true; labels := inactiveLabel |}
  /\ classify' timeline now = Normal (Some Inactive).
Proof.
  intros Hwf Hx Hc Ha.
  assert (H : outdated now timeline = Normal {| result := true; labels := inactiveLabel |}).
  { rewrite (outdated_no_xref now timeline Hwf Hx), decide_last.
    unfold lastCommentOf, lastAssignedOf.
    rewrite (timestampOfLast_none _ _ Hc), (timestampOfLast_none _ _ Ha). reflexivity. }
  split; [exact H|]. rewrite (classify_of _ _ _ H). reflexivity.
Qed.

(** C9.  When the timestamp of the latest comment by an assignee is exactly
    [now] minus 7 days, the comparison with the cutoff holds (it is
    inclusive) and the issue is classified Updated. *)
Theorem seven_day_boundary_is_inclusive (now : Z) (timeline : list timelineEvent)
        (s : string) :
  wf_timeline timeline = true ->
  lastCommentOf assignees timeline = Some s ->
  Date_parse s = Some (now - 7 * msPerDay) ->
  isMomentRecent Date_parse s (sevenDayCutoffTime now) = true
  /\ classify' timeline now = Normal (Some Updated)
  /\ (existsb xref timeline = false ->
      outdated now timeline = Normal {| result := false; labels := statusUpdatedLabel |}).
Proof.
  intros Hwf Hs Hd.
  assert (Hr : isMomentRecent Date_parse s (sevenDayCutoffTime now) = true).
  { unfold isMomentRecent, sevenDayCutoffTime, cutoff, commentByDays.
    rewrite Hd, Z.leb_refl. reflexivity. }
  assert (Hw : withinDays Date_parse now 7 (lastCommentOf assignees timeline) = true).
  { rewrite Hs. unfold withinDays. rewrite Hd. apply Z.leb_refl. }
  split; [exact Hr|].
  destruct (existsb xref timeline) eqn:Hx.
  - split; [|discriminate].
    rewrite (classify_of _ _ _ (outdated_xref now timeline Hwf Hx)). reflexivity.
  - pose proof (recent_comment_rule now timeline Hwf Hx Hw) as H.
    split; [|intros _; exact H]. rewrite (classify_of _ _ _ H). reflexivity.
Qed.

(** C10, amended.  The timestamp of an event is its [updated_at] when that
    is set (a non-empty string) and its [created_at] when [updated_at] is
    absent; so when the latest comment by an assignee, the one that no other
    comment by an assignee follows in the timeline, was created more than 7
    days before [now] and edited within 7 days of [now], the issue is
    classified Updated. *)
Theorem edited_comment_is_Updated (now : Z) (before after : list timelineEvent)
        (c : timelineEvent) (u cr : string) (tu tcr : Z) :
  wf_timeline (before ++ c :: after) = true ->
  commentedByAssignee assignees c = true ->
  existsb (commentedByAssignee assignees) after = false ->
  updated_at c = Some u -> u <> "" ->
  created_at c = Some cr ->
  Date_parse u = Some tu -> Date_parse cr = Some tcr ->
  tcr < now - 7 * msPerDay <= tu ->
  eventTimestampOf c = Some u
  /\ (forall e u', updated_at e = Some u' -> u' <> "" -> eventTimestampOf e = Some u')
  /\ (forall e, updated_at e = None -> eventTimestampOf e = created_at e)
  /\ classify' (before ++ c :: after) now = Normal (Some Updated).
Proof.
  intros Hwf Hc Hafter Hu Hne Hcr Htu Htcr [_ Hle].
  assert (Hsel : forall e u', updated_at e = Some u' -> u' <> "" ->
                              eventTimestampOf e = Some u').
  { intros e u' Hu' Hne'. unfold eventTimestampOf, js_or. rewrite Hu'. cbn [truthy].
    apply String.eqb_neq in Hne'. rewrite Hne'. reflexivity. }
  split; [exact (Hsel c u Hu Hne)|]. split; [exact Hsel|].
  split.
  { intros e He. unfold eventTimestampOf, js_or. rewrite He. reflexivity. }
  assert (Ht : truthy (eventTimestampOf c) = true).
  { rewrite (Hsel c u Hu Hne). cbn [truthy]. apply String.eqb_neq in Hne.
    rewrite Hne. reflexivity. }
  assert (Hw : withinDays Date_parse now 7
                 (lastCommentOf assignees (before ++ c :: after)) = true).
  { unfold lastCommentOf. rewrite (timestampOfLast_split _ _ _ _ Hc Ht Hafter).
    rewrite (Hsel c u Hu Hne). unfold withinDays. rewrite Htu. apply Z.leb_le. exact Hle. }
  destruct (existsb xref (before ++ c :: after)) eqn:Hx.
  - rewrite (classify_of _ _ _ (outdated_xref now _ Hwf Hx)). reflexivity.
  - rewrite (classify_of _ _ _ (recent_comment_rule now _ Hwf Hx Hw)). reflexivity.
Qed.

Lemma find_filter {A : Type} (p q : A -> bool) (l : list A) :
  find (fun x => p x && q x) (filter p l) = find (fun x => p x && q x) l.
Proof.
  induction l as [|x l IH]; [reflexivity|].
  cbn [filter find]. destruct (p x) eqn:Hp; cbn [find andb].
  - rewrite Hp, IH. reflexivity.
  - exact IH.
Qed.

(** [timestampOfLast p] reads only the events that satisfy [p], in the
    order in which the timeline lists them. *)
Lemma timestampOfLast_filter (p : timelineEvent -> bool) (timeline : list timelineEvent) :
  timestampOfLast p timeline = timestampOfLast p (filter p timeline).
Proof.
  unfold timestampOfLast. rewrite <- filter_rev, find_filter. reflexivity.
Qed.

(** C3, amended.  Two timelines that are permutations of each other get the
    same response when they list the comments by assignees in the same
    relative order and the assignments of assignees in the same relative
    order.  Among the qualifying events of one kind the one met first by
    the reverse scan wins, whatever the timestamps. *)
Theorem same_relative_order_same_response (now : Z)
        (timeline timeline' : list timelineEvent) :
  Permutation timeline timeline' ->
  wf_timeline timeline = true ->
  filter (commentedByAssignee assignees) timeline
  = filter (commentedByAssignee assignees) timeline' ->
  filter (assignedToAssignee assignees) timeline
  = filter (assignedToAssignee assignees) timeline' ->
  outdated now timeline = outdated now timeline'
  /\ classify' timeline now = classify' timeline' now.
Proof.
  intros Hp Hwf Hc Ha.
  assert (Hwf' : wf_timeline timeline' = true).
  { unfold wf_timeline in *. rewrite <- (forallb_Permutation _ _ _ Hp). exact Hwf. }
  assert (H : outdated now timeline = outdated now timeline').
  { rewrite (isTimelineOutdated_wf Date_parse findLinkedIssue issueNum assignees now _ Hwf).
    rewrite (isTimelineOutdated_wf Date_parse findLinkedIssue issueNum assignees now _ Hwf').
    rewrite (existsb_Permutation xref _ _ Hp).
    unfold lastCommentOf, lastAssignedOf.
    rewrite (timestampOfLast_filter (commentedByAssignee assignees) timeline), Hc.
    rewrite (timestampOfLast_filter (assignedToAssignee assignees) timeline), Ha.
    rewrite <- !timestampOfLast_filter. reflexivity. }
  split; [exact H|]. unfold classify. rewrite H. reflexivity.
Qed.

(** On a well-formed timeline in chronological order the response is a
    function of the events as a set: a rule on the latest comment
    (assignment) applies exactly when some comment by an assignee
    (assignment of one) is inside the window. *)
Lemma chronological_decision (now : Z) (timeline : list timelineEvent) :
  wf_timeline timeline = true ->
  chronological Date_parse timeline = true ->
  existsb xref timeline = false ->
  let some p cutoffTime :=
    existsb (fun e => p e && since Date_parse cutoffTime e) timeline in
  outdated now timeline =
  Normal (if some (commentedByAssignee assignees) (sevenDayCutoffTime now) then
            {| result := false; labels := statusUpdatedLabel |}
          else if some (assignedToAssignee assignees) (sevenDayCutoffTime now) then
            {| result := false; labels := "" |}
          else if some (commentedByAssignee assignees) (fourteenDayCutoffTime now)
                  || some (assignedToAssignee assignees) (fourteenDayCutoffTime now) then
            {| result := true; labels := toUpdateLabel |}
          else
            {| result := true; labels := inactiveLabel |}).
Proof.
  intros Hwf Hc Hx. cbv zeta.
  rewrite (outdated_no_xref now timeline Hwf Hx).
  unfold decide, lastCommentOf, lastAssignedOf.
  cbn [lastAssignedTimestamp lastCommentTimestamp].
  rewrite !(chronological_last Date_parse _ _ timeline Hc). reflexivity.
Qed.

(** Two chronological timelines with the same events get the same
    response, however each orders the events of one instant. *)
Lemma chronological_timelines_agree (now : Z) (timeline timeline' : list timelineEvent) :
  Permutation timeline timeline' ->
  wf_timeline timeline = true ->
  chronological Date_parse timeline = true ->
  chronological Date_parse timeline' = true ->
  outdated now timeline = outdated now timeline'.
Proof.
  intros Hp Hwf Hc Hc'.
  assert (Hwf' : wf_timeline timeline' = true).
  { unfold wf_timeline in *. rewrite <- (forallb_Permutation _ _ _ Hp). exact Hwf. }
  destruct (existsb xref timeline) eqn:Hx.
  - rewrite (outdated_xref now _ Hwf Hx). symmetry. apply (outdated_xref now _ Hwf').
    rewrite <- (existsb_Permutation xref _ _ Hp). exact Hx.
  - assert (Hx' : existsb xref timeline' = false)
      by (rewrite <- (existsb_Permutation xref _ _ Hp); exact Hx).
    rewrite (chronological_decision now _ Hwf Hc Hx).
    rewrite (chronological_decision now _ Hwf' Hc' Hx').
    rewrite !(existsb_Permutation _ _ _ Hp). reflexivity.
Qed.

Lemma recent_malformed (s : string) (cutoffTime : Z) :
  Date_parse s = None -> recent Date_parse (Some s) cutoffTime = false.
Proof.
  intros H. unfold recent, isMomentRecent. rewrite H. apply andb_false_r.
Qed.

Lemma classification_decide (now : Z) (st : locals) :
  exists c, classification (decide Date_parse now st) = Some c.
Proof.
  unfold decide.
  repeat match goal with
         | |- context [if ?b then _ else _] => destruct b
         end; eexists; reflexivity.
Qed.

(** C4, amended.  A malformed timestamp is not reported.  On a well-formed
    timeline the classifier completes normally with one of the four
    classifications; [isMomentRecent] is false on a timestamp that does not
    parse, for every cutoff; and when the latest comment by an assignee
    (the latest assignment of one) carries such a timestamp, the response is
    the one decided by the latest assignment (comment) alone. *)
Theorem malformed_timestamp_is_not_recent (now : Z) (timeline : list timelineEvent)
        (s : string) :
  wf_timeline timeline = true ->
  Date_parse s = None ->
  (forall cutoffTime, isMomentRecent Date_parse s cutoffTime = false)
  /\ (exists c, classify' timeline now = Normal (Some c))
  /\ (existsb xref timeline = false ->
      lastCommentOf assignees timeline = Some s ->
      outdated now timeline =
      Normal (decide Date_parse now
                {| lastAssignedTimestamp := lastAssignedOf assignees timeline;
                   lastCommentTimestamp := None |}))
  /\ (existsb xref timeline = false ->
      lastAssignedOf assignees timeline = Some s ->
      outdated now timeline =
      Normal (decide Date_parse now
                {| lastAssignedTimestamp := None;
                   lastCommentTimestamp := lastCommentOf assignees timeline |})).
Proof.
  intros Hwf Hs. split.
  { intros cutoffTime. unfold isMomentRecent. rewrite Hs. reflexivity. }
  split.
  { unfold classify.
    rewrite (isTimelineOutdated_wf Date_parse findLinkedIssue issueNum assignees now _ Hwf).
    destruct (existsb xref timeline).
    - exists Updated. reflexivity.
    - destruct (classification_decide now
                  {| lastAssignedTimestamp := lastAssignedOf assignees timeline;
                     lastCommentTimestamp := lastCommentOf assignees timeline |}) as [c Hc].
      exists c. cbn [fmap bind]. rewrite Hc. reflexivity. }
  split; intros Hx Hl; rewrite (outdated_no_xref now timeline Hwf Hx), Hl;
    unfold decide; cbn [lastAssignedTimestamp lastCommentTimestamp];
    rewrite !(recent_malformed s _ Hs); reflexivity.
Qed.

End Rules.

(** ** The rules on examples *)

Section Examples.

Import Sample.

Local Abbreviation outdated timeline :=
  (isTimelineOutdated Sample.Date_parse Sample.findLinkedIssue now timeline 42 ["alice"]).
Local Abbreviation classified timeline :=
  (classify Sample.Date_parse Sample.findLinkedIssue timeline 42 ["alice"] now).
Local Abbreviation xref :=
  (crossReferencedByAssignee Sample.findLinkedIssue 42 ["alice"]).

(** Scenarios A to E of the specification. *)

Example scenario_A :
  classified [commented alice None (Some "2024-01-13T00:00:00Z")] = Normal (Some Updated).
Proof. reflexivity. Qed.

Example scenario_B :
  classified [assigned alice alice (Some "2024-01-12T00:00:00Z")]
  = Normal (Some RecentlyAssigned).
Proof. reflexivity. Qed.

Example scenario_C :
  classified [commented alice None (Some "2024-01-05T00:00:00Z")] = Normal (Some NeedsUpdate).
Proof. reflexivity. Qed.

Example scenario_D :
  classified [assigned alice alice (Some "2023-12-26T00:00:00Z")] = Normal (Some Inactive).
Proof. reflexivity. Qed.

Example scenario_E :
  classified [crossReferenced alice "fixes #42" None] = Normal (Some Updated).
Proof. reflexivity. Qed.

Example empty_timeline :
  outdated [] = Normal {| result := true; labels := inactiveLabel |}
  /\ classified [] = Normal (Some Inactive).
Proof. split; reflexivity. Qed.

(** An event without an actor makes the classifier throw. *)
Example missing_actor_throws :
  outdated [commented None None (Some "2024-01-13T00:00:00Z")] = Throw TypeError.
Proof. reflexivity. Qed.

(** [main] skips an issue without assignees. *)
Example no_assignee_is_skipped :
  main_body Sample.Date_parse Sample.findLinkedIssue node12 now 42 [] commentedTenDaysAgo
  = Normal [].
Proof. reflexivity. Qed.

Example ten_days_asks_for_update :
  main_body Sample.Date_parse Sample.findLinkedIssue node12 now 42 ["alice"] commentedTenDaysAgo
  = Normal [removeLabel 42 statusUpdatedLabel; removeLabel 42 inactiveLabel;
            addLabelsCall 42 [toUpdateLabel];
            createComment 42 ["alice"] toUpdateLabel
              (Some "Hello @alice, please update before Sunday, January 7, 2024 at 4:00 PM PST; label: To Update !. (${label})")].
Proof. reflexivity. Qed.

(** Where [toLocaleString] rejects the options the labels change and no
    comment is requested. *)
Example ten_days_without_comment :
  main_body Sample.Date_parse Sample.findLinkedIssue ecma402 now 42 ["alice"] commentedTenDaysAgo
  = Normal [removeLabel 42 statusUpdatedLabel; removeLabel 42 inactiveLabel;
            addLabelsCall 42 [toUpdateLabel];
            createComment 42 ["alice"] toUpdateLabel None].
Proof. reflexivity. Qed.

Lemma cross_reference_is_Updated_witness :
  wf_timeline crossReferencedLongAgo = true
  /\ existsb xref crossReferencedLongAgo = true
  /\ outdated crossReferencedLongAgo
     = Normal {| result := true; labels := statusUpdatedLabel |}
  /\ classified crossReferencedLongAgo = Normal (Some Updated).
Proof.
  split; [reflexivity|]. split; [reflexivity|].
  apply (cross_reference_is_Updated Sample.Date_parse Sample.findLinkedIssue 42 ["alice"]
           now crossReferencedLongAgo); reflexivity.
Defined.

Lemma cross_reference_changes_nothing_witness :
  main_body Sample.Date_parse Sample.findLinkedIssue node12 now 42 ["alice"]
            crossReferencedLongAgo
  = Normal [].
Proof.
  apply (cross_reference_changes_nothing Sample.Date_parse Sample.findLinkedIssue 42 ["alice"]
           node12 now crossReferencedLongAgo); reflexivity.
Defined.

Lemma recent_comment_is_Updated_witness :
  lastCommentOf ["alice"] commentedTwoDaysAgo = Some "2024-01-13T00:00:00Z"
  /\ outdated commentedTwoDaysAgo = Normal {| result := false; labels := statusUpdatedLabel |}
  /\ classified commentedTwoDaysAgo = Normal (Some Updated).
Proof.
  split; [reflexivity|].
  apply (recent_comment_is_Updated Sample.Date_parse Sample.findLinkedIssue 42 ["alice"]
           now commentedTwoDaysAgo); reflexivity.
Defined.

Lemma recent_assignment_is_RecentlyAssigned_witness :
  lastAssignedOf ["alice"] assignedThreeDaysAgo = Some "2024-01-12T00:00:00Z"
  /\ outdated assignedThreeDaysAgo = Normal {| result := false; labels := "" |}
  /\ classified assignedThreeDaysAgo = Normal (Some RecentlyAssigned)
  /\ main_body Sample.Date_parse Sample.findLinkedIssue node12 now 42 ["alice"]
               assignedThreeDaysAgo
     = Normal [removeLabel 42 toUpdateLabel; removeLabel 42 inactiveLabel;
               removeLabel 42 statusUpdatedLabel].
Proof.
  split; [reflexivity|].
  apply (recent_assignment_is_RecentlyAssigned Sample.Date_parse Sample.findLinkedIssue
           42 ["alice"] node12 now assignedThreeDaysAgo); reflexivity.
Defined.

Lemma fortnight_is_NeedsUpdate_witness :
  lastCommentOf ["alice"] commentedTenDaysAgo = Some "2024-01-05T00:00:00Z"
  /\ lastAssignedOf ["alice"] commentedTenDaysAgo = Some "2023-12-20T00:00:00Z"
  /\ outdated commentedTenDaysAgo = Normal {| result := true; labels := toUpdateLabel |}
  /\ classified commentedTenDaysAgo = Normal (Some NeedsUpdate).
Proof.
  split; [reflexivity|]. split; [reflexivity|].
  apply (fortnight_is_NeedsUpdate Sample.Date_parse Sample.findLinkedIssue 42 ["alice"]
           now commentedTenDaysAgo); reflexivity.
Defined.

Lemma no_activity_is_Inactive_witness :
  outdated nothingByAssignee = Normal {| result := true; labels := inactiveLabel |}
  /\ classified nothingByAssignee = Normal (Some Inactive).
Proof.
  apply (no_activity_is_Inactive Sample.Date_parse Sample.findLinkedIssue 42 ["alice"]
           now nothingByAssignee); reflexivity.
Defined.

Lemma seven_day_boundary_is_inclusive_witness :
  Sample.Date_parse "2024-01-08T00:00:00Z" = Some (now - 7 * msPerDay)
  /\ isMomentRecent Sample.Date_parse "2024-01-08T00:00:00Z" (sevenDayCutoffTime now) = true
  /\ classified commentedAtCutoff = Normal (Some Updated).
Proof.
  split; [reflexivity|].
  pose proof (seven_day_boundary_is_inclusive Sample.Date_parse Sample.findLinkedIssue
                42 ["alice"] now commentedAtCutoff "2024-01-08T00:00:00Z"
                eq_refl eq_refl eq_refl) as (Hr & Hc & _).
  split; [exact Hr|exact Hc].
Defined.

Lemma edited_comment_is_Updated_witness :
  eventTimestampOf editedComment = Some "2024-01-14T10:00:00Z"
  /\ classified ([assigned bob alice (Some "2023-11-30T09:00:00Z")]
                 ++ editedComment :: [labeled bob (Some "2024-01-14T12:00:00Z")])
     = Normal (Some Updated).
Proof.
  assert (Hne : "2024-01-14T10:00:00Z" <> "") by discriminate.
  assert (Hwin : 1701421200000 < now - 7 * msPerDay <= 1705226400000)
    by (unfold now, msPerDay; lia).
  pose proof (edited_comment_is_Updated Sample.Date_parse Sample.findLinkedIssue 42 ["alice"]
                now [assigned bob alice (Some "2023-11-30T09:00:00Z")]
                [labeled bob (Some "2024-01-14T12:00:00Z")] editedComment
                "2024-01-14T10:00:00Z" "2023-12-01T09:00:00Z"
                1705226400000 1701421200000
                eq_refl eq_refl eq_refl eq_refl Hne eq_refl eq_refl eq_refl Hwin)
    as (Ht & _ & _ & Hc).
  split; [exact Ht|exact Hc].
Defined.

(** C10.  [editedComment] is a comment by the assignee created on
    2023-12-01, more than 7 days before [now], and edited on 2024-01-14,
    within the last 7 days.  In the timeline [editedComment; oldComment],
    which lists the two comments in the order of their creation, a later
    comment by the assignee follows it: the scan takes that one, 10 days
    old, and the issue is classified NeedsUpdate, not Updated. *)
Lemma edited_comment_counterexample :
  wf_timeline [editedComment; oldComment] = true
  /\ commentedByAssignee ["alice"] editedComment = true
  /\ withinDays Sample.Date_parse now 7 (created_at editedComment) = false
  /\ withinDays Sample.Date_parse now 7 (updated_at editedComment) = true
  /\ eventTimestampOf editedComment = updated_at editedComment
  /\ outdated [editedComment; oldComment]
     = Normal {| result := true; labels := toUpdateLabel |}
  /\ classified [editedComment; oldComment] = Normal (Some NeedsUpdate)
  /\ classified [editedComment; oldComment] <> Normal (Some Updated).
Proof. repeat split; try reflexivity. discriminate. Qed.

(** C3.  [oldComment; newComment] and [newComment; oldComment] are
    permutations of each other whose two events have different instants,
    so no tie is to be broken; the first is classified Updated, the second
    NeedsUpdate. *)
Lemma order_dependent_counterexample :
  Permutation [oldComment; newComment] [newComment; oldComment]
  /\ tieFree Sample.Date_parse [oldComment; newComment] = true
  /\ classified [oldComment; newComment] = Normal (Some Updated)
  /\ classified [newComment; oldComment] = Normal (Some NeedsUpdate)
  /\ classified [oldComment; newComment] <> classified [newComment; oldComment].
Proof.
  split; [apply perm_swap|]. repeat split; try reflexivity. discriminate.
Qed.

Lemma same_relative_order_same_response_witness :
  outdated [oldComment; labeled bob (Some "2024-01-06T00:00:00Z"); newComment]
  = outdated [labeled bob (Some "2024-01-06T00:00:00Z"); oldComment; newComment]
  /\ classified [oldComment; labeled bob (Some "2024-01-06T00:00:00Z"); newComment]
     = classified [labeled bob (Some "2024-01-06T00:00:00Z"); oldComment; newComment].
Proof.
  apply (same_relative_order_same_response Sample.Date_parse Sample.findLinkedIssue
           42 ["alice"] now); try reflexivity.
  apply perm_swap.
Defined.

Example chronological_timelines_agree_on_ties :
  outdated [oldComment; labeled bob (Some "2024-01-13T00:00:00Z"); newComment]
  = outdated [oldComment; newComment; labeled bob (Some "2024-01-13T00:00:00Z")].
Proof.
  apply (chronological_timelines_agree Sample.Date_parse Sample.findLinkedIssue 42 ["alice"]
           now); try reflexivity.
  apply perm_skip, perm_swap.
Qed.

(** C4.  The only comment by an assignee carries a timestamp that does not
    parse; the classifier completes normally and classifies the issue
    Inactive. *)
Lemma malformed_timestamp_counterexample :
  Sample.Date_parse "not a date" = None
  /\ commentedByAssignee ["alice"] malformedComment = true
  /\ eventTimestampOf malformedComment = Some "not a date"
  /\ outdated [malformedComment] = Normal {| result := true; labels := inactiveLabel |}
  /\ classified [malformedComment] = Normal (Some Inactive).
Proof. repeat split; reflexivity. Qed.

Lemma malformed_timestamp_is_not_recent_witness :
  lastCommentOf ["alice"]
    [assigned alice alice (Some "2024-01-05T00:00:00Z"); malformedComment] = Some "not a date"
  /\ outdated [assigned alice alice (Some "2024-01-05T00:00:00Z"); malformedComment]
     = Normal {| result := true; labels := toUpdateLabel |}.
Proof.
  split; [reflexivity|].
  pose proof (malformed_timestamp_is_not_recent Sample.Date_parse Sample.findLinkedIssue
                42 ["alice"] now
                [assigned alice alice (Some "2024-01-05T00:00:00Z"); malformedComment]
                "not a date" eq_refl eq_refl) as (_ & _ & H & _).
  rewrite (H eq_refl eq_refl). reflexivity.
Defined.

End Examples.

(** ** More on the classifier *)

Section Classification.

Variable Date_parse : string -> option Z.
Variable findLinkedIssue : string -> option positive.
Variable issueNum : positive.
Variable assignees : list string.

Local Abbreviation xref := (crossReferencedByAssignee findLinkedIssue issueNum assignees).
Local Abbreviation outdated now timeline :=
  (isTimelineOutdated Date_parse findLinkedIssue now timeline issueNum assignees).

Lemma withinDays_widens (now days days' : Z) (ts : option string) :
  days <= days' ->
  withinDays Date_parse now days ts = true -> withinDays Date_parse now days' ts = true.
Proof.
  unfold withinDays, msPerDay. intros Hd.
  destruct ts as [s|]; [|discriminate].
  destruct (Date_parse s) as [t|]; [|discriminate].
  rewrite !Z.leb_le. lia.
Qed.

(** X1.  What passes the 7-day test passes the 14-day test: the
    14-day cutoff is the earlier one, whatever [now] is. *)
Theorem seven_day_recent_is_fourteen_day_recent (now : Z) (dateString : string) :
  isMomentRecent Date_parse dateString (sevenDayCutoffTime now) = true ->
  isMomentRecent Date_parse dateString (fourteenDayCutoffTime now) = true.
Proof.
  unfold isMomentRecent, sevenDayCutoffTime, fourteenDayCutoffTime, cutoff,
    commentByDays, inactiveUpdatedByDays, msPerDay.
  destruct (Date_parse dateString) as [t|]; [|discriminate].
  destruct (_ - 7 * _ <=? t) eqn:H7; [|discriminate]. intros _.
  apply Z.leb_le in H7.
  assert (H14 : (now - 14 * 86400000 <=? t) = true) by (apply Z.leb_le; lia).
  rewrite H14. reflexivity.
Qed.

(** The decision of a well-formed timeline without qualifying
    cross-reference, as a table. *)
Lemma outdated_table (now : Z) (timeline : list timelineEvent) :
  wf_timeline timeline = true ->
  existsb xref timeline = false ->
  outdated now timeline =
  Normal (if withinDays Date_parse now 7 (lastCommentOf assignees timeline) then
            {| result := false; labels := statusUpdatedLabel |}
          else if withinDays Date_parse now 7 (lastAssignedOf assignees timeline) then
            {| result := false; labels := "" |}
          else if withinDays Date_parse now 14 (lastCommentOf assignees timeline)
                  || withinDays Date_parse now 14 (lastAssignedOf assignees timeline) then
            {| result := true; labels := toUpdateLabel |}
          else
            {| result := true; labels := inactiveLabel |}).
Proof.
  intros Hwf Hx.
  rewrite (outdated_no_xref Date_parse findLinkedIssue issueNum assignees now timeline Hwf Hx).
  rewrite decide_last. reflexivity.
Qed.

(** X2.  On a well-formed timeline the response is
    [{result: true, labels: 'Status: Updated'}] exactly when some event is
    a qualifying cross-reference: no other path returns it. *)
Theorem cross_reference_response_iff (now : Z) (timeline : list timelineEvent) :
  wf_timeline timeline = true ->
  (outdated now timeline = Normal {| result := true; labels := statusUpdatedLabel |}
   <-> existsb xref timeline = true).
Proof.
  intros Hwf. split.
  - intros H. destruct (existsb xref timeline) eqn:Hx; [reflexivity|].
    rewrite (outdated_table now timeline Hwf Hx) in H.
    repeat match type of H with
           | context [if ?b then _ else _] => destruct b
           end; discriminate.
  - apply (outdated_xref Date_parse findLinkedIssue issueNum assignees now timeline Hwf).
Qed.

(** X3.  On a well-formed timeline the response is
    [{result: true, labels: '2 weeks inactive'}] exactly when there is no
    qualifying cross-reference and neither the latest comment by an assignee
    nor the latest assignment of one is within 14 days of [now]. *)
Theorem Inactive_iff (now : Z) (timeline : list timelineEvent) :
  wf_timeline timeline = true ->
  (outdated now timeline = Normal {| result := true; labels := inactiveLabel |}
   <-> existsb xref timeline = false
       /\ withinDays Date_parse now 14 (lastCommentOf assignees timeline) = false
       /\ withinDays Date_parse now 14 (lastAssignedOf assignees timeline) = false).
Proof.
  intros Hwf. split.
  - intros H. destruct (existsb xref timeline) eqn:Hx.
    + rewrite (outdated_xref Date_parse findLinkedIssue issueNum assignees
                 now timeline Hwf Hx) in H. discriminate.
    + split; [reflexivity|]. rewrite (outdated_table now timeline Hwf Hx) in H.
      destruct (withinDays Date_parse now 7 (lastCommentOf assignees timeline));
        destruct (withinDays Date_parse now 7 (lastAssignedOf assignees timeline));
        destruct (withinDays Date_parse now 14 (lastCommentOf assignees timeline));
        destruct (withinDays Date_parse now 14 (lastAssignedOf assignees timeline));
        cbn in H; try discriminate; auto.
  - intros (Hx & Hc & Ha). rewrite (outdated_table now timeline Hwf Hx).
    destruct (withinDays Date_parse now 7 (lastCommentOf assignees timeline)) eqn:Hc7.
    { apply (withinDays_widens now 7 14) in Hc7; [congruence|lia]. }
    destruct (withinDays Date_parse now 7 (lastAssignedOf assignees timeline)) eqn:Ha7.
    { apply (withinDays_widens now 7 14) in Ha7; [congruence|lia]. }
    rewrite Hc, Ha. reflexivity.
Qed.

(** X4.  On a well-formed timeline the flag [result] is false, the issue
    is not outdated, exactly when there is no qualifying cross-reference and
    the latest comment by an assignee or the latest assignment of one is
    within 7 days of [now]. *)
Theorem not_outdated_iff (now : Z) (timeline : list timelineEvent) (r : response) :
  wf_timeline timeline = true ->
  outdated now timeline = Normal r ->
  (result r = false
   <-> existsb xref timeline = false
       /\ (withinDays Date_parse now 7 (lastCommentOf assignees timeline) = true
           \/ withinDays Date_parse now 7 (lastAssignedOf assignees timeline) = true)).
Proof.
  intros Hwf H. destruct (existsb xref timeline) eqn:Hx.
  - rewrite (outdated_xref Date_parse findLinkedIssue issueNum assignees
               now timeline Hwf Hx) in H.
    inversion H; subst r. cbn. split; [discriminate|intros [? _]; discriminate].
  - rewrite (outdated_table now timeline Hwf Hx) in H.
    destruct (withinDays Date_parse now 7 (lastCommentOf assignees timeline));
      destruct (withinDays Date_parse now 7 (lastAssignedOf assignees timeline));
      destruct (withinDays Date_parse now 14 (lastCommentOf assignees timeline));
      destruct (withinDays Date_parse now 14 (lastAssignedOf assignees timeline));
      cbn in H; inversion H; subst r; cbn; intuition discriminate.
Qed.

(** X5.  On a well-formed timeline the classifier returns one of five
    responses: 'Status: Updated' with either flag, the empty label with
    [false], 'To Update !' and '2 weeks inactive' with [true].  It does not
    throw, and [{result: false, labels: 'To Update !'}] or
    [{result: false, labels: '2 weeks inactive'}] never come out. *)
Theorem responses_of_the_classifier (now : Z) (timeline : list timelineEvent) :
  wf_timeline timeline = true ->
  exists r, outdated now timeline = Normal r
            /\ In r [ {| result := true; labels := statusUpdatedLabel |};
                      {| result := false; labels := statusUpdatedLabel |};
                      {| result := false; labels := "" |};
                      {| result := true; labels := toUpdateLabel |};
                      {| result := true; labels := inactiveLabel |} ].
Proof.
  intros Hwf. destruct (existsb xref timeline) eqn:Hx.
  - eexists. split.
    + apply (outdated_xref Date_parse findLinkedIssue issueNum assignees now timeline Hwf Hx).
    + cbn. auto.
  - eexists. split; [apply (outdated_table now timeline Hwf Hx)|].
    repeat match goal with
           | |- context [if ?b then _ else _] => destruct b
           end; cbn; auto 6.
Qed.

Lemma filter_filter_implied {A : Type} (p q : A -> bool) (l : list A) :
  (forall x, p x = true -> q x = true) ->
  filter p (filter q l) = filter p l.
Proof.
  intros Himp. induction l as [|x l IH]; [reflexivity|].
  cbn [filter]. destruct (q x) eqn:Hq; cbn [filter].
  - rewrite IH. reflexivity.
  - destruct (p x) eqn:Hp; [|exact IH].
    rewrite (Himp x Hp) in Hq. discriminate.
Qed.

Lemma existsb_filter_implied {A : Type} (p q : A -> bool) (l : list A) :
  (forall x, p x = true -> q x = true) ->
  existsb p (filter q l) = existsb p l.
Proof.
  intros Himp. induction l as [|x l IH]; [reflexivity|].
  cbn [filter existsb]. destruct (q x) eqn:Hq; cbn [existsb].
  - rewrite IH. reflexivity.
  - destruct (p x) eqn:Hp; [|exact IH].
    rewrite (Himp x Hp) in Hq. discriminate.
Qed.

Lemma forallb_filter {A : Type} (p q : A -> bool) (l : list A) :
  forallb p l = true -> forallb p (filter q l) = true.
Proof.
  induction l as [|x l IH]; [reflexivity|].
  cbn [forallb filter]. intros H. apply andb_prop in H as [Hx Hl].
  destruct (q x); cbn [forallb]; [rewrite Hx|]; auto.
Qed.

Lemma timestampOfLast_timestamped (p : timelineEvent -> bool) (timeline : list timelineEvent) :
  timestampOfLast p timeline =
  timestampOfLast p (filter (fun e => p e && truthy (eventTimestampOf e)) timeline).
Proof.
  unfold timestampOfLast. rewrite <- filter_rev.
  generalize (rev timeline) as l. induction l as [|x l IH]; [reflexivity|].
  cbn [filter find]. destruct (p x && truthy (eventTimestampOf x)) eqn:Hx; cbn [find].
  - rewrite Hx. reflexivity.
  - exact IH.
Qed.

(** X6.  Only three kinds of event count.  Dropping from a well-formed
    timeline every event that is not a qualifying cross-reference, a
    timestamped comment by an assignee or a timestamped assignment of one
    leaves the response unchanged. *)
Theorem other_events_are_ignored (now : Z) (timeline : list timelineEvent) :
  wf_timeline timeline = true ->
  outdated now (filter (relevant findLinkedIssue issueNum assignees) timeline)
  = outdated now timeline.
Proof.
  intros Hwf.
  assert (Hwf' : wf_timeline
                   (filter (relevant findLinkedIssue issueNum assignees) timeline) = true)
    by (apply forallb_filter; exact Hwf).
  rewrite (isTimelineOutdated_wf Date_parse findLinkedIssue issueNum assignees now _ Hwf).
  rewrite (isTimelineOutdated_wf Date_parse findLinkedIssue issueNum assignees now _ Hwf').
  rewrite existsb_filter_implied.
  2:{ intros e He. unfold relevant. rewrite He. reflexivity. }
  unfold lastCommentOf, lastAssignedOf.
  rewrite (timestampOfLast_timestamped (commentedByAssignee assignees) (filter _ _)).
  rewrite (timestampOfLast_timestamped (assignedToAssignee assignees) (filter _ _)).
  rewrite !filter_filter_implied.
  - rewrite <- !timestampOfLast_timestamped. reflexivity.
  - intros e He. apply andb_prop in He as [Hp Ht]. unfold relevant.
    rewrite Hp, Ht. cbn [andb orb].
    destruct (crossReferencedByAssignee findLinkedIssue issueNum assignees e);
      [reflexivity|]. cbn [orb]. rewrite ?orb_true_r. reflexivity.
  - intros e He. apply andb_prop in He as [Hp Ht]. unfold relevant.
    rewrite Hp, Ht. cbn [andb orb].
    destruct (crossReferencedByAssignee findLinkedIssue issueNum assignees e);
      [reflexivity|]. cbn [orb]. rewrite ?orb_true_r. reflexivity.
Qed.

End Classification.

Section EdgesOfTheClassifier.

Variable Date_parse : string -> option Z.
Variable findLinkedIssue : string -> option positive.
Variable issueNum : positive.

(** X7.  With an empty list of assignees nothing qualifies: every
    well-formed timeline gets [{result: true, labels: '2 weeks inactive'}]. *)
Theorem no_assignee_no_activity (now : Z) (timeline : list timelineEvent) :
  wf_timeline timeline = true ->
  isTimelineOutdated Date_parse findLinkedIssue now timeline issueNum []
  = Normal {| result := true; labels := inactiveLabel |}.
Proof.
  intros Hwf.
  assert (Hnone : forall p : timelineEvent -> bool,
             (forall e, p e = false) -> existsb p timeline = false).
  { intros p Hp. induction timeline as [|e l IH]; [reflexivity|].
    cbn [existsb]. cbn [wf_timeline forallb] in Hwf. apply andb_prop in Hwf as [_ Hl].
    rewrite Hp. apply IH. exact Hl. }
  assert (Hin : forall who, loginIn [] who = false) by (intros [a|]; reflexivity).
  rewrite (outdated_no_xref Date_parse findLinkedIssue issueNum [] now timeline Hwf).
  2:{ apply Hnone. intros e. unfold crossReferencedByAssignee.
      rewrite Hin. apply andb_false_r. }
  unfold lastAssignedOf, lastCommentOf.
  rewrite !timestampOfLast_none; [reflexivity| |].
  - apply Hnone. intros e. unfold commentedByAssignee. rewrite Hin. apply andb_false_r.
  - apply Hnone. intros e. unfold assignedToAssignee. rewrite Hin. apply andb_false_r.
Qed.

Variable assignees : list string.

Lemma loop_body_other_kind (i : nat) (e : timelineEvent) (st : locals) (r : response) :
  isCrossReference e = false ->
  loop_body findLinkedIssue issueNum assignees i e st <> Normal (inl r).
Proof.
  unfold isCrossReference, loop_body. intros Hk. rewrite Hk. cbn [bind].
  destruct (if Nat.eqb i 0 then _ else _); cbn [bind]; [|discriminate].
  destruct (if event e === "commented" then _ else _) as [[|]|]; cbn [bind];
    try discriminate.
  - destruct (negb _); discriminate.
  - destruct (if event e === "assigned" then _ else _) as [[|]|]; cbn [bind];
      try discriminate.
    destruct (negb _); discriminate.
Qed.

Lemma loop_body_first_without_actor (e : timelineEvent) (st : locals) :
  isCrossReference e = false -> actor e = None ->
  loop_body findLinkedIssue issueNum assignees 0 e st = Throw TypeError.
Proof.
  unfold isCrossReference, loop_body. intros Hk Ha. rewrite Hk, Ha. reflexivity.
Qed.

Lemma for_loop_first_without_actor (e : timelineEvent) (rest : list timelineEvent)
      (n : nat) (st : locals) :
  actor e = None ->
  existsb isCrossReference (e :: rest) = false ->
  (1 <= n <= length (e :: rest))%nat ->
  for_loop findLinkedIssue (e :: rest) issueNum assignees n st = Throw TypeError.
Proof.
  intros Ha Hk. revert st. induction n as [|i IH]; intros st Hn; [lia|].
  cbn [for_loop].
  destruct (nth_error (e :: rest) i) as [ev|] eqn:Hev.
  2:{ apply nth_error_None in Hev. lia. }
  cbn [prop bind].
  assert (Hkev : isCrossReference ev = false).
  { destruct (isCrossReference ev) eqn:Hc; [|reflexivity].
    assert (Ht : existsb isCrossReference (e :: rest) = true).
    { apply existsb_exists. exists ev. split; [|exact Hc].
      eapply nth_error_In; eassumption. }
    congruence. }
  destruct i as [|j].
  - cbn in Hev. inversion Hev; subst ev.
    rewrite (loop_body_first_without_actor e st Hkev Ha). reflexivity.
  - pose proof (loop_body_other_kind (S j) ev st) as Hno.
    destruct (loop_body findLinkedIssue issueNum assignees (S j) ev st) as [[r|st']|[]];
      cbn [bind].
    + exfalso. apply (Hno r Hkev). reflexivity.
    + apply IH. lia.
    + reflexivity.
Qed.

(** X8.  A timeline that holds no cross-referenced event and whose first,
    oldest event has no actor cannot be classified: the log line of the
    first event reads the login of its actor and the classifier throws a
    TypeError, whatever the other events are. *)
Theorem first_event_without_actor_throws (now : Z) (e : timelineEvent)
        (rest : list timelineEvent) :
  actor e = None ->
  existsb isCrossReference (e :: rest) = false ->
  isTimelineOutdated Date_parse findLinkedIssue now (e :: rest) issueNum assignees
  = Throw TypeError.
Proof.
  intros Ha Hk. unfold isTimelineOutdated.
  rewrite (for_loop_first_without_actor e rest _ _ Ha Hk); [reflexivity|].
  cbn [length]. lia.
Qed.

End EdgesOfTheClassifier.

(** ** More on the dispatch *)

Section Dispatch.

Variable rt : runtime.
Variable now : Z.
Variable issueNum : positive.
Variable assignees : list string.

(** The five shapes of the requests of [dispatch]. *)
Lemma dispatch_cases (r : response) :
  (labels r = statusUpdatedLabel
   /\ dispatch rt now issueNum assignees r
      = [removeLabel issueNum toUpdateLabel; removeLabel issueNum inactiveLabel;
         addLabelsCall issueNum [statusUpdatedLabel]])
  \/ (labels r = toUpdateLabel
      /\ dispatch rt now issueNum assignees r
         = [removeLabel issueNum statusUpdatedLabel; removeLabel issueNum inactiveLabel;
            addLabelsCall issueNum [toUpdateLabel];
            createComment issueNum assignees toUpdateLabel
              (instructions rt now assignees toUpdateLabel)])
  \/ (labels r = inactiveLabel
      /\ dispatch rt now issueNum assignees r
         = [removeLabel issueNum toUpdateLabel; removeLabel issueNum statusUpdatedLabel;
            addLabelsCall issueNum [inactiveLabel];
            createComment issueNum assignees inactiveLabel
              (instructions rt now assignees inactiveLabel)])
  \/ (labels r = ""
      /\ dispatch rt now issueNum assignees r
         = [removeLabel issueNum toUpdateLabel; removeLabel issueNum inactiveLabel;
            removeLabel issueNum statusUpdatedLabel])
  \/ dispatch rt now issueNum assignees r = [].
Proof.
  unfold dispatch.
  destruct (isUpdated r) eqn:H1.
  { left. unfold isUpdated in H1. apply andb_prop in H1 as [_ H1].
    apply String.eqb_eq in H1. rewrite H1. auto. }
  destruct (isToUpdate r) eqn:H2.
  { right; left. unfold isToUpdate in H2. apply andb_prop in H2 as [_ H2].
    apply String.eqb_eq in H2. rewrite H2. auto. }
  destruct (isInactive r) eqn:H3.
  { right; right; left. unfold isInactive in H3. apply andb_prop in H3 as [_ H3].
    apply String.eqb_eq in H3. rewrite H3. auto. }
  destruct (isRecentlyAssigned r) eqn:H4.
  { right; right; right; left. unfold isRecentlyAssigned in H4.
    apply andb_prop in H4 as [_ H4]. apply String.eqb_eq in H4. rewrite H4. auto. }
  right; right; right; right. reflexivity.
Qed.


(** X10.  [main] calls [postComment] exactly when it adds the label
    'To Update !' or '2 weeks inactive', once, with the label it adds; with
    'Status: Updated' and when it only removes labels it does not. *)
Theorem comment_goes_with_the_label (r : response) :
  commentsOf (dispatch rt now issueNum assignees r)
  = filter (fun label => negb (label === statusUpdatedLabel))
           (added (dispatch rt now issueNum assignees r)).
Proof.
  destruct (dispatch_cases r) as [[_ H]|[[_ H]|[[_ H]|[[_ H]|H]]]];
    rewrite H; reflexivity.
Qed.

End Dispatch.

(** ** The pages of a timeline *)

Section TimelinePages.

Variable listEventsForTimeline : nat -> reply (list timelineEvent).

Lemma getTimelineFrom_pages (pages : list (list timelineEvent)) :
  forall (fuel page : nat) (arra : list timelineEvent),
    map listEventsForTimeline (seq page (length pages)) = map Data pages ->
    forallb (fun data => negb (Nat.eqb (length data) 0)) pages = true ->
    (length pages < fuel)%nat ->
    getTimelineFrom listEventsForTimeline fuel page arra
    = getTimelineFrom listEventsForTimeline (fuel - length pages)
                      (page + length pages) (arra ++ concat pages).
Proof.
  induction pages as [|data pages IH]; intros fuel page arra Hm Hne Hf.
  - cbn. rewrite Nat.sub_0_r, Nat.add_0_r, app_nil_r. reflexivity.
  - cbn [length seq map] in Hm. inversion Hm as [[Hd Hrest]].
    cbn [forallb] in Hne. apply andb_prop in Hne as [Hdata Hne].
    cbn [length] in Hf. destruct fuel as [|fuel]; [lia|].
    cbn [getTimelineFrom]. rewrite Hd.
    apply negb_true_iff in Hdata. rewrite Hdata.
    rewrite (IH fuel (S page) (arra ++ data)%list Hrest Hne) by lia.
    cbn [length concat]. rewrite <- app_assoc.
    replace (S page + length pages)%nat with (page + S (length pages))%nat by lia.
    reflexivity.
Qed.

(** X11.  When the first [k] requests are answered with non-empty pages
    and the next one with an empty page, [getTimeline] returns the events
    of the [k] pages, in the order of the pages; [k + 1] requests
    suffice, and [k] may be 0. *)
Theorem getTimeline_collects_the_pages (pages : list (list timelineEvent)) (fuel : nat) :
  map listEventsForTimeline (seq 1 (length pages)) = map Data pages ->
  forallb (fun data => negb (Nat.eqb (length data) 0)) pages = true ->
  listEventsForTimeline (S (length pages)) = Data [] ->
  (length pages < fuel)%nat ->
  getTimeline listEventsForTimeline fuel = Some (inr (concat pages)).
Proof.
  intros Hm Hne Hend Hf. unfold getTimeline.
  rewrite (getTimelineFrom_pages pages fuel 1 [] Hm Hne Hf).
  destruct (fuel - length pages)%nat as [|fuel'] eqn:Hfuel; [lia|].
  cbn [getTimelineFrom Nat.add app]. rewrite Hend. reflexivity.
Qed.

(** X12.  A rejected request ends [getTimeline] with a ReferenceError:
    the [catch] block reads the undeclared variable [error].  The request
    is not tried again and the events of the pages fetched before it are
    lost. *)
Theorem getTimeline_rejected_request (pages : list (list timelineEvent)) (fuel : nat) :
  map listEventsForTimeline (seq 1 (length pages)) = map Data pages ->
  forallb (fun data => negb (Nat.eqb (length data) 0)) pages = true ->
  listEventsForTimeline (S (length pages)) = Rejected ->
  (length pages < fuel)%nat ->
  getTimeline listEventsForTimeline fuel = Some (inl (ReferenceError "error")).
Proof.
  intros Hm Hne Hend Hf. unfold getTimeline.
  rewrite (getTimelineFrom_pages pages fuel 1 [] Hm Hne Hf).
  destruct (fuel - length pages)%nat as [|fuel'] eqn:Hfuel; [lia|].
  cbn [getTimelineFrom Nat.add]. rewrite Hend. reflexivity.
Qed.

Lemma getTimelineFrom_endless (fuel : nat) :
  (forall page, isPage (listEventsForTimeline page) = true) ->
  forall page arra, getTimelineFrom listEventsForTimeline fuel page arra = None.
Proof.
  intros Hall. induction fuel as [|fuel IH]; intros page arra; [reflexivity|].
  cbn [getTimelineFrom]. specialize (Hall page).
  destruct (listEventsForTimeline page) as [[|e data]|]; try discriminate.
  cbn [length Nat.eqb]. apply IH.
Qed.

(** X13.  [getTimeline] has no bound on the number of pages: when every
    request is answered with a non-empty page it does not return, whatever
    the number of requests allowed. *)
Theorem getTimeline_needs_an_empty_page (fuel : nat) :
  (forall page, isPage (listEventsForTimeline page) = true) ->
  getTimeline listEventsForTimeline fuel = None.
Proof.
  intros Hall. apply (getTimelineFrom_endless fuel Hall).
Qed.

Lemma getTimelineFrom_more_fuel (fuel fuel' : nat) :
  (fuel <= fuel')%nat ->
  forall page arra r,
    getTimelineFrom listEventsForTimeline fuel page arra = Some r ->
    getTimelineFrom listEventsForTimeline fuel' page arra = Some r.
Proof.
  revert fuel'. induction fuel as [|fuel IH]; intros fuel' Hle page arra r H;
    [discriminate|].
  destruct fuel' as [|fuel']; [lia|].
  cbn [getTimelineFrom] in *.
  destruct (listEventsForTimeline page) as [data|]; [|exact H].
  destruct (Nat.eqb (length data) 0); [exact H|].
  apply (IH fuel'); [lia|exact H].
Qed.

(** Once [getTimeline] has ended within some number of requests, allowing
    more requests does not change how it ends. *)
Lemma getTimeline_more_fuel (fuel fuel' : nat) (r : exception + list timelineEvent) :
  (fuel <= fuel')%nat ->
  getTimeline listEventsForTimeline fuel = Some r ->
  getTimeline listEventsForTimeline fuel' = Some r.
Proof.
  intros Hle. apply (getTimelineFrom_more_fuel fuel fuel' Hle).
Qed.

End TimelinePages.

(** ** The cards of a column *)

Section ColumnPages.

Variable listCards : nat -> reply (list card).

Lemma yieldsFrom_pages (k : nat) :
  forall remaining : nat,
    (k <= remaining <= 100)%nat ->
    forallb notEmptyPage (map listCards (seq (100 - remaining) k)) = true ->
    yieldsFrom listCards remaining
    = (flat_map yieldsOfReply (map listCards (seq (100 - remaining) k))
       ++ yieldsFrom listCards (remaining - k))%list.
Proof.
  induction k as [|k IH]; intros remaining Hr Hne.
  - cbn. rewrite Nat.sub_0_r. reflexivity.
  - destruct remaining as [|remaining]; [lia|].
    cbn [seq map forallb] in Hne. apply andb_prop in Hne as [Hpage Hne].
    cbn [seq map flat_map].
    replace (S (100 - S remaining))%nat with (100 - remaining)%nat in * by lia.
    cbn [yieldsFrom].
    rewrite (IH remaining) by (try lia; exact Hne).
    replace (S remaining - S k)%nat with (remaining - k)%nat by lia.
    destruct (listCards (100 - S remaining)) as [[|c data]|]; try discriminate.
    + cbn [length Nat.eqb yieldsOfReply]. rewrite <- app_assoc. reflexivity.
    + cbn [yieldsOfReply app]. reflexivity.
Qed.

(** X14.  The generator yields the issue numbers of the cards of pages
    1, 2, ... up to the first empty page: a rejected request is skipped,
    it does not end the listing, and nothing of the pages after the empty
    one is yielded. *)
Theorem listing_ends_at_the_first_empty_page (k : nat) :
  (k < 99)%nat ->
  forallb notEmptyPage (map listCards (seq 1 k)) = true ->
  listCards (S k) = Data [] ->
  getIssueNumsFromColumn listCards
  = flat_map yieldsOfReply (map listCards (seq 1 k)).
Proof.
  intros Hk Hne Hend. unfold getIssueNumsFromColumn.
  rewrite (yieldsFrom_pages k 99) by (try lia; exact Hne).
  change (100 - 99)%nat with 1%nat.
  destruct (99 - k)%nat as [|remaining] eqn:Hrem; [lia|].
  cbn [yieldsFrom].
  replace (100 - S remaining)%nat with (S k) by lia.
  rewrite Hend. cbn [length Nat.eqb]. apply app_nil_r.
Qed.

(** X15.  The generator stops after page 99: when none of the pages 1 to
    99 is empty it yields the issue numbers of these 99 pages and page 100
    is not requested. *)
Theorem listing_ends_after_page_99 :
  forallb notEmptyPage (map listCards (seq 1 99)) = true ->
  getIssueNumsFromColumn listCards
  = flat_map yieldsOfReply (map listCards (seq 1 99)).
Proof.
  intros Hne. unfold getIssueNumsFromColumn.
  rewrite (yieldsFrom_pages 99 99) by (try lia; exact Hne).
  change (100 - 99)%nat with 1%nat.
  rewrite Nat.sub_diag. cbn [yieldsFrom]. apply app_nil_r.
Qed.

End ColumnPages.

(** ** The issue number of a card *)

Section IssueNumbers.

Lemma split_not_nil (sep : ascii) (s : string) : split sep s <> [].
Proof.
  destruct s as [|c s]; cbn; [discriminate|].
  destruct (Ascii.eqb c sep); [discriminate|].
  destruct (split sep s); discriminate.
Qed.

Lemma split_app (sep : ascii) (a b : string) :
  split sep (a ++ String sep b) = (split sep a ++ split sep b)%list.
Proof.
  induction a as [|c a IH]; cbn [append split].
  - rewrite Ascii.eqb_refl. reflexivity.
  - rewrite IH. destruct (Ascii.eqb c sep); [reflexivity|].
    destruct (split sep a) as [|segment segments] eqn:Hs.
    + exfalso. exact (split_not_nil sep a Hs).
    + reflexivity.
Qed.

Lemma split_one_segment (sep : ascii) (s : string) :
  mentions sep s = false -> split sep s = [s].
Proof.
  induction s as [|c s IH]; cbn [mentions split]; [reflexivity|].
  intros H. apply orb_false_elim in H as [Hc Hs].
  rewrite Hc, (IH Hs). reflexivity.
Qed.

Lemma split_segments_without_separator (sep : ascii) (s : string) :
  Forall (fun segment => mentions sep segment = false) (split sep s).
Proof.
  induction s as [|c s IH]; cbn [split].
  - constructor; [reflexivity|constructor].
  - destruct (Ascii.eqb c sep) eqn:Hc.
    + constructor; [reflexivity|exact IH].
    + destruct (split sep s) as [|segment segments]; [repeat constructor; cbn;
        rewrite Hc; reflexivity|].
      inversion IH as [|? ? Hseg Hsegs]; subst.
      constructor; [|exact Hsegs]. cbn [mentions]. rewrite Hc, Hseg. reflexivity.
Qed.

Lemma pop_without_separator (sep : ascii) (s : string) :
  mentions sep (pop (split sep s)) = false.
Proof.
  pose proof (split_segments_without_separator sep s) as Hall.
  pose proof (split_not_nil sep s) as Hne.
  unfold pop. destruct (split sep s) as [|x l]; [congruence|].
  rewrite Forall_forall in Hall. apply Hall.
  apply (@exists_last _ (x :: l)) in Hne as (l' & y & Hl). rewrite Hl.
  rewrite last_last. apply in_or_app. right. left. reflexivity.
Qed.

(** X16.  The issue number read off a card is the part of its
    [content_url] after the last slash: for a URL that ends in a slash
    followed by a text without slash, that text. *)
Theorem issue_number_of_a_url (base number : string) :
  mentions "/" number = false ->
  yieldsOfPage [ {| content_url := Some (base ++ String "/" number) |} ] = [number].
Proof.
  intros Hn. cbn [yieldsOfPage flat_map content_url app].
  unfold pop. rewrite split_app, (split_one_segment _ _ Hn), last_last. reflexivity.
Qed.

Variable listCards : nat -> reply (list card).

Lemma yieldsFrom_origin (remaining : nat) (v : string) :
  (remaining <= 99)%nat ->
  In v (yieldsFrom listCards remaining) ->
  exists page data c url,
    (1 <= page <= 99)%nat /\ listCards page = Data data /\ In c data
    /\ content_url c = Some url /\ v = pop (split "/" url).
Proof.
  induction remaining as [|remaining IH]; intros Hr Hin; [contradiction|].
  cbn [yieldsFrom] in Hin.
  destruct (listCards (100 - S remaining)) as [data|] eqn:Hpage.
  - destruct (Nat.eqb (length data) 0); [contradiction|].
    apply in_app_or in Hin as [Hin|Hin]; [|apply IH; [lia|exact Hin]].
    unfold yieldsOfPage in Hin. apply in_flat_map in Hin as (c & Hc & Hv).
    destruct (content_url c) as [url|] eqn:Hurl; [|contradiction].
    destruct Hv as [Hv|[]].
    exists (100 - S remaining)%nat, data, c, url.
    repeat split; auto; lia.
  - apply IH; [lia|exact Hin].
Qed.

Lemma getIssueNumsFromColumn_eq :
  getIssueNumsFromColumn listCards = yieldsFrom listCards 99.
Proof. reflexivity. Qed.

(** X17.  Every value that the generator yields is the last segment of
    the [content_url] of a card of one of the pages 1 to 99, and holds no
    slash; a card without [content_url] yields nothing. *)
Theorem yields_are_last_segments (v : string) :
  In v (getIssueNumsFromColumn listCards) ->
  mentions "/" v = false
  /\ exists page data c url,
       (1 <= page <= 99)%nat /\ listCards page = Data data /\ In c data
       /\ content_url c = Some url /\ v = pop (split "/" url).
Proof.
  intros Hin. rewrite getIssueNumsFromColumn_eq in Hin.
  apply yieldsFrom_origin in Hin; [|exact (le_n 99)].
  split; [|exact Hin].
  destruct Hin as (_ & _ & _ & url & _ & _ & _ & _ & Hv). rewrite Hv.
  apply pop_without_separator.
Qed.

End IssueNumbers.

(** ** The run over the issues *)

Section Run.

Variable Date_parse : string -> option Z.
Variable findLinkedIssue : string -> option positive.
Variable rt : runtime.
Variable now : Z.
Variable issues_get : positive -> reply (list user).
Variable listEventsForTimeline : positive -> nat -> reply (list timelineEvent).

Local Abbreviation run fuel issueNums :=
  (main Date_parse findLinkedIssue rt now issues_get listEventsForTimeline fuel issueNums).

(** The run over [first ++ second] is the run over [first] followed, when
    it returns, by the run over [second]. *)
Lemma main_app (fuel : nat) (first second : list positive) :
  run fuel (first ++ second) =
  match run fuel first with
  | (calls, Returned) => let (later, e) := run fuel second in ((calls ++ later)%list, e)
  | stopped => stopped
  end.
Proof.
  induction first as [|k first IH]; cbn [app main].
  - destruct (run fuel second). reflexivity.
  - destruct (getAssignees (issues_get k)) as [assignees|]; [|reflexivity].
    destruct (Nat.eqb (length assignees) 0); [exact IH|].
    destruct (getTimeline (listEventsForTimeline k) fuel) as [[e|timeline]|];
      try reflexivity.
    destruct (main_body _ _ _ _ _ _ _) as [calls|e]; [|reflexivity].
    rewrite IH. destruct (run fuel first) as [calls' [|e|]]; try reflexivity.
    destruct (run fuel second) as [later e]. rewrite app_assoc. reflexivity.
Qed.

(** X18.  When the assignees of an issue cannot be fetched, [getAssignees]
    returns [null] and [main] throws a TypeError on its [length]: the run
    stops at that issue, with the requests of the issues before it, and
    sends nothing for that issue or for any issue after it. *)
Theorem unfetched_assignees_stop_the_run (fuel : nat) (before after : list positive)
        (k : positive) (calls : list call) :
  run fuel before = (calls, Returned) ->
  issues_get k = Rejected ->
  run fuel (before ++ k :: after) = (calls, Threw (Raised TypeError)).
Proof.
  intros Hb Hk. rewrite main_app, Hb. cbn [main]. rewrite Hk. cbn [getAssignees].
  rewrite app_nil_r. reflexivity.
Qed.

(** X19.  When a request for a page of the timeline of an issue is
    rejected, the ReferenceError of [getTimeline] leaves [main]: the run
    stops at that issue, with the requests of the issues before it, and
    sends nothing for that issue or for any issue after it. *)
Theorem rejected_timeline_stops_the_run (fuel : nat) (before after : list positive)
        (k : positive) (calls : list call) (pages : list (list timelineEvent)) :
  run fuel before = (calls, Returned) ->
  isPage (issues_get k) = true ->
  map (listEventsForTimeline k) (seq 1 (length pages)) = map Data pages ->
  forallb (fun data => negb (Nat.eqb (length data) 0)) pages = true ->
  listEventsForTimeline k (S (length pages)) = Rejected ->
  (length pages < fuel)%nat ->
  run fuel (before ++ k :: after) = (calls, Threw (ReferenceError "error")).
Proof.
  intros Hb Hk Hm Hne Hrej Hf. rewrite main_app, Hb. cbn [main].
  destruct (issues_get k) as [[|a data]|]; try discriminate.
  cbn [getAssignees filterForAssigneesLogins map length Nat.eqb].
  rewrite (getTimeline_rejected_request _ pages fuel Hm Hne Hrej Hf).
  rewrite app_nil_r. reflexivity.
Qed.

(** X20.  An issue without assignee is skipped: the run is the run over
    the issues that are left when those fetched without assignee are
    dropped, and their timelines are not requested. *)
Theorem unassigned_issues_are_skipped (fuel : nat) (issueNums : list positive) :
  run fuel issueNums
  = run fuel (filter (fun k => negb (unassigned (issues_get k))) issueNums).
Proof.
  induction issueNums as [|k issueNums IH]; [reflexivity|].
  cbn [filter]. destruct (issues_get k) as [[|a data]|] eqn:Hk; cbn [unassigned negb].
  - cbn [main]. rewrite Hk. cbn [getAssignees filterForAssigneesLogins map length Nat.eqb].
    exact IH.
  - cbn [main]. rewrite Hk, IH. reflexivity.
  - cbn [main]. rewrite Hk. reflexivity.
Qed.

Lemma dispatch_names_the_issue (issueNum : positive) (assignees : list string)
      (r : response) (c : call) :
  In c (dispatch rt now issueNum assignees r) -> issueOf c = issueNum.
Proof.
  intros Hin.
  destruct (dispatch_cases rt now issueNum assignees r) as [[_ H]|[[_ H]|[[_ H]|[[_ H]|H]]]];
    rewrite H in Hin; cbn [In] in Hin; intuition (subst; reflexivity).
Qed.

Lemma main_body_names_the_issue (issueNum : positive) (assignees : list string)
      (timeline : list timelineEvent) (calls : list call) (c : call) :
  main_body Date_parse findLinkedIssue rt now issueNum assignees timeline = Normal calls ->
  In c calls -> issueOf c = issueNum.
Proof.
  unfold main_body. destruct (Nat.eqb (length assignees) 0).
  - intros H. inversion H. contradiction.
  - destruct (isTimelineOutdated _ _ _ _ _ _) as [r|e]; cbn [bind]; [|discriminate].
    intros H. inversion H. apply dispatch_names_the_issue.
Qed.

(** X21.  Every request of a run names an issue of the column whose
    assignees were fetched and are not none: the run never touches an issue
    that it was not given, that has no assignee, or whose assignees it could
    not read. *)
Theorem requests_name_assigned_issues (fuel : nat) (issueNums : list positive) (c : call) :
  In c (fst (run fuel issueNums)) ->
  In (issueOf c) issueNums /\ isPage (issues_get (issueOf c)) = true.
Proof.
  induction issueNums as [|k issueNums IH]; cbn [main fst]; [contradiction|].
  destruct (issues_get k) as [[|a data]|] eqn:Hk;
    cbn [getAssignees filterForAssigneesLogins map length Nat.eqb];
    try contradiction.
  - intros Hin. destruct (IH Hin). split; [right|]; assumption.
  - destruct (getTimeline (listEventsForTimeline k) fuel) as [[e|timeline]|];
      try contradiction.
    destruct (main_body _ _ _ _ _ _ _) as [calls|e] eqn:Hbody; [|contradiction].
    destruct (run fuel issueNums) as [later e]. cbn [fst] in *.
    intros Hin. apply in_app_or in Hin as [Hin|Hin].
    + rewrite (main_body_names_the_issue _ _ _ _ _ Hbody Hin).
      split; [left; reflexivity|]. rewrite Hk. reflexivity.
    + destruct (IH Hin). split; [right|]; assumption.
Qed.

(** Once a run has ended, by returning or by throwing, allowing more
    requests per timeline changes nothing of it. *)
Lemma main_more_fuel (fuel fuel' : nat) (issueNums : list positive) :
  (fuel <= fuel')%nat ->
  snd (run fuel issueNums) <> Pending ->
  run fuel' issueNums = run fuel issueNums.
Proof.
  intros Hle. induction issueNums as [|k issueNums IH]; [reflexivity|].
  cbn [main]. destruct (getAssignees (issues_get k)) as [assignees|]; [|reflexivity].
  destruct (Nat.eqb (length assignees) 0); [exact IH|].
  destruct (getTimeline (listEventsForTimeline k) fuel) as [r|] eqn:Ht.
  2:{ cbn. congruence. }
  rewrite (getTimeline_more_fuel _ fuel fuel' r Hle Ht).
  destruct r as [e|timeline]; [reflexivity|].
  destruct (main_body _ _ _ _ _ _ _) as [calls|e]; [|reflexivity].
  destruct (run fuel issueNums) as [later e] eqn:Hrun. cbn [snd] in *.
  intros Hp. rewrite (IH Hp). reflexivity.
Qed.

Lemma main_body_wf (issueNum : positive) (assignees : list string)
      (timeline : list timelineEvent) :
  wf_timeline timeline = true ->
  exists calls,
    main_body Date_parse findLinkedIssue rt now issueNum assignees timeline = Normal calls
    /\ (length calls <= 4)%nat.
Proof.
  intros Hwf. unfold main_body. destruct (Nat.eqb (length assignees) 0).
  - exists []. split; [reflexivity|cbn; lia].
  - rewrite (isTimelineOutdated_wf Date_parse findLinkedIssue issueNum assignees
               now timeline Hwf). cbn [bind].
    eexists. split; [reflexivity|].
    match goal with
    | |- (length (dispatch _ _ _ _ ?r) <= 4)%nat =>
        destruct (dispatch_cases rt now issueNum assignees r)
          as [[_ H]|[[_ H]|[[_ H]|[[_ H]|H]]]]; rewrite H; cbn; lia
    end.
Qed.

(** X22.  A run over issues whose assignees can be fetched and, for those
    that have assignees, whose timelines can be fetched and are well-formed
    returns, and sends at most four requests for each issue. *)
Theorem run_returns (fuel : nat) (issueNums : list positive)
        (timelineOf : positive -> list timelineEvent) :
  (forall k, In k issueNums ->
             unassigned (issues_get k) = true
             \/ (isPage (issues_get k) = true
                 /\ getTimeline (listEventsForTimeline k) fuel = Some (inr (timelineOf k))
                 /\ wf_timeline (timelineOf k) = true)) ->
  snd (run fuel issueNums) = Returned
  /\ (length (fst (run fuel issueNums)) <= 4 * length issueNums)%nat.
Proof.
  induction issueNums as [|k issueNums IH]; intros Hall.
  - split; [reflexivity|cbn; lia].
  - assert (Hrest : forall k', In k' issueNums ->
               unassigned (issues_get k') = true
               \/ (isPage (issues_get k') = true
                   /\ getTimeline (listEventsForTimeline k') fuel
                      = Some (inr (timelineOf k'))
                   /\ wf_timeline (timelineOf k') = true))
      by (intros k' Hin; apply Hall; right; exact Hin).
    destruct (IH Hrest) as [Hend Hlen].
    cbn [main]. destruct (Hall k (or_introl eq_refl)) as [Hun|(Hpage & Ht & Hwf)].
    + destruct (issues_get k) as [[|a data]|]; try discriminate.
      cbn [getAssignees filterForAssigneesLogins map length Nat.eqb].
      split; [exact Hend|]. cbn [length]. lia.
    + destruct (issues_get k) as [[|a data]|]; try discriminate.
      cbn [getAssignees filterForAssigneesLogins map length Nat.eqb].
      rewrite Ht.
      destruct (main_body_wf k (login a :: map login data) (timelineOf k) Hwf)
        as (calls & Hbody & Hcalls).
      rewrite Hbody. destruct (run fuel issueNums) as [later e].
      cbn [fst snd] in *. split; [exact Hend|].
      rewrite length_app. cbn [length]. lia.
Qed.

End Run.

(** ** The text of the comment *)

Section Comment.

Lemma append_assoc (a b c : string) : (a ++ b) ++ c = a ++ b ++ c.
Proof. induction a as [|x a IH]; cbn; [reflexivity|rewrite IH; reflexivity]. Qed.

Lemma append_empty (a : string) : a ++ "" = a.
Proof. induction a as [|x a IH]; cbn; [reflexivity|rewrite IH; reflexivity]. Qed.

Lemma mentions_append (c : ascii) (a b : string) :
  mentions c (a ++ b) = mentions c a || mentions c b.
Proof.
  induction a as [|x a IH]; cbn; [reflexivity|].
  rewrite IH. apply orb_assoc.
Qed.

Lemma prefix_append (a q : string) : prefix a (a ++ q) = true.
Proof.
  induction a as [|x a IH]; cbn [append prefix]; [destruct q; reflexivity|].
  destruct (ascii_dec x x) as [_|Hne]; [exact IH|contradiction].
Qed.

Lemma substring_all (n : nat) (q : string) :
  (String.length q <= n)%nat -> substring 0 n q = q.
Proof.
  revert n. induction q as [|x q IH]; intros [|n] H; cbn in *; try reflexivity; try lia.
  rewrite IH by lia. reflexivity.
Qed.

Lemma substring_after (a q : string) (n : nat) :
  substring (String.length a) n (a ++ q) = substring 0 n q.
Proof. induction a as [|x a IH]; cbn; [reflexivity|exact IH]. Qed.

Lemma length_append (a b : string) :
  String.length (a ++ b) = (String.length a + String.length b)%nat.
Proof. induction a as [|x a IH]; cbn; [reflexivity|rewrite IH; reflexivity]. Qed.

Lemma prefix_other_char (body rest : string) (c : ascii) :
  Ascii.eqb c "$" = false -> prefix (String "$" body) (String c rest) = false.
Proof.
  intros Hc. cbn [prefix]. destruct (ascii_dec "$" c) as [He|_]; [|reflexivity].
  subst c. discriminate.
Qed.

(** A placeholder is first met right after a text without dollar. *)
Lemma cut_after_plain_text (body p q : string) :
  mentions "$" p = false ->
  cut (String "$" body) (p ++ String "$" body ++ q) = Some (p, q).
Proof.
  intros Hp. induction p as [|c p IH].
  - cbn [append]. change (String "$" (body ++ q)) with (String "$" body ++ q).
    destruct (String "$" body ++ q) as [|x s] eqn:Hs; [discriminate|].
    cbn [cut]. rewrite <- Hs, prefix_append, substring_after, substring_all;
      [reflexivity|].
    rewrite length_append. lia.
  - cbn [mentions] in Hp. apply orb_false_elim in Hp as [Hc Hp].
    change (String c p ++ String "$" body ++ q)
      with (String c (p ++ String "$" body ++ q)).
    cbn [cut]. rewrite (prefix_other_char body _ c Hc), (IH Hp). reflexivity.
Qed.

Lemma cut_plain_text (body s : string) :
  mentions "$" s = false -> cut (String "$" body) s = None.
Proof.
  induction s as [|c s IH]; [reflexivity|].
  cbn [mentions]. intros H. apply orb_false_elim in H as [Hc Hs].
  cbn [cut]. rewrite (prefix_other_char body s c Hc), (IH Hs). reflexivity.
Qed.

Lemma getSubstitution_plain (matched before after replacement : string) :
  mentions "$" replacement = false ->
  getSubstitution matched before after replacement = replacement.
Proof.
  induction replacement as [|c r IH]; [reflexivity|].
  cbn [mentions getSubstitution]. intros H. apply orb_false_elim in H as [Hc Hr].
  rewrite Hc, (IH Hr). reflexivity.
Qed.

Lemma replace_after_plain_text (body replacement p q : string) :
  mentions "$" p = false -> mentions "$" replacement = false ->
  replace (String "$" body) replacement (p ++ String "$" body ++ q)
  = p ++ replacement ++ q.
Proof.
  intros Hp Hr. unfold replace.
  rewrite (cut_after_plain_text body p q Hp), (getSubstitution_plain _ _ _ _ Hr).
  reflexivity.
Qed.

Lemma createAssigneeString_cons (a b : string) (rest : list string) :
  createAssigneeString (a :: b :: rest)
  = "@" ++ a ++ ", " ++ createAssigneeString (b :: rest).
Proof. unfold createAssigneeString. cbn [map join]. rewrite append_assoc. reflexivity. Qed.

(** X23.  The assignee string of a comment mentions every assignee: for
    each login of the list it holds an at sign followed by the login; for
    no assignee it is empty. *)
Theorem every_assignee_is_mentioned (assignees : list string) (a : string) :
  In a assignees ->
  exists before after, createAssigneeString assignees = before ++ "@" ++ a ++ after.
Proof.
  induction assignees as [|x [|y rest] IH]; intros Hin.
  - contradiction.
  - destruct Hin as [Hx|[]]. subst x. exists "", "".
    unfold createAssigneeString. cbn [map join]. rewrite append_empty. reflexivity.
  - rewrite createAssigneeString_cons. destruct Hin as [Hx|Hin].
    + subst x. exists "". eexists. reflexivity.
    + destruct (IH Hin) as (before & after & Heq). rewrite Heq.
      exists ("@" ++ x ++ ", " ++ before), after.
      rewrite !append_assoc. reflexivity.
Qed.

Lemma createAssigneeString_plain (assignees : list string) :
  forallb (fun a => negb (mentions "$" a)) assignees = true ->
  mentions "$" (createAssigneeString assignees) = false.
Proof.
  induction assignees as [|x [|y rest] IH]; intros H.
  - reflexivity.
  - cbn [forallb] in H. apply andb_prop in H as [Hx _]. apply negb_true_iff in Hx.
    unfold createAssigneeString. cbn [map join]. rewrite mentions_append, Hx. reflexivity.
  - cbn [forallb] in H. apply andb_prop in H as [Hx H]. apply negb_true_iff in Hx.
    rewrite createAssigneeString_cons, !mentions_append, Hx, (IH H). reflexivity.
Qed.

(** X24.  Where the template can be read and [toLocaleString] prints the
    cutoff: in a template that holds the three placeholders in the order
    assignees, cutoffTime, label, with no dollar before or between them, the
    comment has the assignee string, the cutoff and the label in their
    places when these hold no dollar; what follows the third placeholder is
    kept as it is, later placeholders included. *)
Theorem instructions_fill_the_template (rt : runtime) (now : Z)
        (p0 p1 p2 p3 cutoffTimeString labelString : string) (assignees : list string) :
  readFileSync rt
  = Some (p0 ++ "${assignees}" ++ p1 ++ "${cutoffTime}" ++ p2 ++ "${label}" ++ p3) ->
  toLocaleString rt (sevenDayCutoffTime now) = Some cutoffTimeString ->
  mentions "$" p0 = false -> mentions "$" p1 = false -> mentions "$" p2 = false ->
  forallb (fun a => negb (mentions "$" a)) assignees = true ->
  mentions "$" cutoffTimeString = false ->
  mentions "$" labelString = false ->
  instructions rt now assignees labelString
  = Some (p0 ++ createAssigneeString assignees ++ p1 ++ cutoffTimeString ++ p2
             ++ labelString ++ p3).
Proof.
  intros Hread Hprint H0 H1 H2 Ha Hc Hl. apply createAssigneeString_plain in Ha.
  set (A := createAssigneeString assignees) in *.
  unfold instructions, formatComment. fold A. rewrite Hread, Hprint. f_equal.
  rewrite (replace_after_plain_text "{assignees}" A p0 _ H0 Ha).
  assert (E1 : forall r, p0 ++ A ++ p1 ++ r = (p0 ++ A ++ p1) ++ r)
    by (intros r; rewrite !append_assoc; reflexivity).
  rewrite E1, (replace_after_plain_text "{cutoffTime}" cutoffTimeString _ _).
  2:{ rewrite !mentions_append, H0, Ha, H1. reflexivity. }
  2:{ exact Hc. }
  assert (E2 : forall r, (p0 ++ A ++ p1) ++ cutoffTimeString ++ p2 ++ r
                         = (p0 ++ A ++ p1 ++ cutoffTimeString ++ p2) ++ r)
    by (intros r; rewrite !append_assoc; reflexivity).
  rewrite E2, (replace_after_plain_text "{label}" labelString _ _).
  2:{ rewrite !mentions_append, H0, Ha, H1, Hc, H2. reflexivity. }
  2:{ exact Hl. }
  rewrite !append_assoc. reflexivity.
Qed.

(** X25.  Where the template can be read and [toLocaleString] prints the
    cutoff: a template without dollar holds no placeholder, and the comment
    is the template itself, whatever the assignees, the cutoff and the
    label. *)
Theorem template_without_placeholder (rt : runtime) (now : Z)
        (text cutoffTimeString labelString : string) (assignees : list string) :
  readFileSync rt = Some text ->
  toLocaleString rt (sevenDayCutoffTime now) = Some cutoffTimeString ->
  mentions "$" text = false ->
  instructions rt now assignees labelString = Some text.
Proof.
  intros Hread Hprint Ht. unfold instructions, formatComment, replace.
  rewrite Hread, Hprint.
  rewrite (cut_plain_text "{assignees}" text Ht).
  rewrite (cut_plain_text "{cutoffTime}" text Ht).
  rewrite (cut_plain_text "{label}" text Ht). reflexivity.
Qed.

End Comment.

(** ** The comments of a run *)

Section CommentsOfTheRun.

Variable Date_parse : string -> option Z.
Variable findLinkedIssue : string -> option positive.
Variable now : Z.
Variable issues_get : positive -> reply (list user).
Variable listEventsForTimeline : positive -> nat -> reply (list timelineEvent).

Local Abbreviation run rt fuel issueNums :=
  (main Date_parse findLinkedIssue rt now issues_get listEventsForTimeline fuel issueNums).

Lemma bodiesOf_app (a b : list call) :
  bodiesOf (a ++ b) = (bodiesOf a ++ bodiesOf b)%list.
Proof. apply flat_map_app. Qed.

Lemma dispatch_without_body (rt : runtime) (issueNum : positive) (assignees : list string)
      (r : response) :
  (forall labelString, instructions rt now assignees labelString = None) ->
  bodiesOf (dispatch rt now issueNum assignees r) = [].
Proof.
  intros Hnone.
  destruct (dispatch_cases rt now issueNum assignees r)
    as [[_ H]|[[_ H]|[[_ H]|[[_ H]|H]]]]; rewrite H; cbn; rewrite ?Hnone; reflexivity.
Qed.

(** X26.  [formatComment] runs inside the [try] of [postComment]: where
    the template cannot be read, or where [toLocaleString] throws on the
    options of [formatComment], no run requests a comment, whatever the
    issues and their timelines. *)
Theorem no_comment_when_formatComment_throws (rt : runtime) (fuel : nat)
        (issueNums : list positive) :
  readFileSync rt = None \/ toLocaleString rt (sevenDayCutoffTime now) = None ->
  bodiesOf (fst (run rt fuel issueNums)) = [].
Proof.
  intros Hthrows.
  assert (Hnone : forall assignees labelString,
             instructions rt now assignees labelString = None).
  { intros assignees labelString. unfold instructions, formatComment.
    destruct Hthrows as [H|H]; rewrite H; [reflexivity|].
    destruct (readFileSync rt); reflexivity. }
  induction issueNums as [|k issueNums IH]; [reflexivity|].
  cbn [main]. destruct (getAssignees (issues_get k)) as [assignees|]; [|reflexivity].
  destruct (Nat.eqb (length assignees) 0) eqn:Hlen; [exact IH|].
  destruct (getTimeline (listEventsForTimeline k) fuel) as [[e|timeline]|];
    try reflexivity.
  unfold main_body. rewrite Hlen.
  destruct (isTimelineOutdated _ _ _ _ _ _) as [r|e]; cbn [bind]; [|reflexivity].
  destruct (run rt fuel issueNums) as [later e]. cbn [fst] in *.
  rewrite bodiesOf_app, IH, (dispatch_without_body rt k assignees r (Hnone assignees)).
  reflexivity.
Qed.

Lemma dispatch_forgetBody (rt rt' : runtime) (issueNum : positive)
      (assignees : list string) (r : response) :
  map forgetBody (dispatch rt now issueNum assignees r)
  = map forgetBody (dispatch rt' now issueNum assignees r).
Proof.
  destruct (dispatch_cases rt now issueNum assignees r)
    as [[_ H]|[[_ H]|[[_ H]|[[_ H]|H]]]];
    destruct (dispatch_cases rt' now issueNum assignees r)
      as [[_ H']|[[_ H']|[[_ H']|[[_ H']|H']]]];
    rewrite H, H'; try reflexivity;
    unfold dispatch in H, H';
    destruct (isUpdated r), (isToUpdate r), (isInactive r), (isRecentlyAssigned r);
    discriminate.
Qed.

(** X27.  Two runs that differ only in the runtime, in whether and how
    the comment can be built, make the same calls apart from the text of
    the comments, and end in the same way: a comment that cannot be built
    changes no label request and stops nothing. *)
Theorem runtime_changes_only_the_comments (rt rt' : runtime) (fuel : nat)
        (issueNums : list positive) :
  map forgetBody (fst (run rt fuel issueNums))
  = map forgetBody (fst (run rt' fuel issueNums))
  /\ snd (run rt fuel issueNums) = snd (run rt' fuel issueNums).
Proof.
  induction issueNums as [|k issueNums IH]; [split; reflexivity|].
  cbn [main]. destruct (getAssignees (issues_get k)) as [assignees|];
    [|split; reflexivity].
  destruct (Nat.eqb (length assignees) 0) eqn:Hlen; [exact IH|].
  destruct (getTimeline (listEventsForTimeline k) fuel) as [[e|timeline]|];
    try (split; reflexivity).
  unfold main_body. rewrite Hlen.
  destruct (isTimelineOutdated _ _ _ _ _ _) as [r|e]; cbn [bind]; [|split; reflexivity].
  destruct (run rt fuel issueNums) as [later e].
  destruct (run rt' fuel issueNums) as [later' e'].
  cbn [fst snd] in *. destruct IH as [IHc IHe].
  rewrite !map_app, IHc, (dispatch_forgetBody rt rt' k assignees r).
  split; [reflexivity|exact IHe].
Qed.

End CommentsOfTheRun.

(** ** The run on examples *)

Section ExamplesOfTheRun.

Import Sample SampleRun.

Local Abbreviation outdated timeline :=
  (isTimelineOutdated Sample.Date_parse Sample.findLinkedIssue now timeline 42 ["alice"]).
Local Abbreviation xref :=
  (crossReferencedByAssignee Sample.findLinkedIssue 42 ["alice"]).
Local Abbreviation run fuel issueNums :=
  (main Sample.Date_parse Sample.findLinkedIssue ecma402 now
        SampleRun.issues_get SampleRun.listEventsForTimeline fuel issueNums).

Example listing_of_the_sample_column :
  getIssueNumsFromColumn SampleRun.listCards = ["2607"; "2400"; "77"].
Proof. reflexivity. Qed.

Example run_of_the_sample_issues :
  run 5 [1; 2; 5]%positive
  = ([removeLabel 1 statusUpdatedLabel; removeLabel 1 inactiveLabel;
      addLabelsCall 1 [toUpdateLabel]; createComment 1 ["alice"] toUpdateLabel None;
      removeLabel 5 statusUpdatedLabel; removeLabel 5 inactiveLabel;
      addLabelsCall 5 [toUpdateLabel]; createComment 5 ["alice"] toUpdateLabel None],
     Returned).
Proof. reflexivity. Qed.

Lemma seven_day_recent_is_fourteen_day_recent_witness :
  isMomentRecent Sample.Date_parse "2024-01-13T00:00:00Z" (fourteenDayCutoffTime now) = true.
Proof.
  apply (seven_day_recent_is_fourteen_day_recent Sample.Date_parse now). reflexivity.
Defined.

Lemma cross_reference_response_iff_witness :
  outdated crossReferencedLongAgo = Normal {| result := true; labels := statusUpdatedLabel |}
  <-> existsb xref crossReferencedLongAgo = true.
Proof.
  apply (cross_reference_response_iff Sample.Date_parse Sample.findLinkedIssue 42 ["alice"]
           now crossReferencedLongAgo). reflexivity.
Defined.

Lemma Inactive_iff_witness :
  outdated nothingByAssignee = Normal {| result := true; labels := inactiveLabel |}
  <-> existsb xref nothingByAssignee = false
      /\ withinDays Sample.Date_parse now 14 (lastCommentOf ["alice"] nothingByAssignee) = false
      /\ withinDays Sample.Date_parse now 14 (lastAssignedOf ["alice"] nothingByAssignee) = false.
Proof.
  apply (Inactive_iff Sample.Date_parse Sample.findLinkedIssue 42 ["alice"]
           now nothingByAssignee). reflexivity.
Defined.

Lemma not_outdated_iff_witness :
  result {| result := false; labels := statusUpdatedLabel |} = false
  <-> existsb xref commentedTwoDaysAgo = false
      /\ (withinDays Sample.Date_parse now 7 (lastCommentOf ["alice"] commentedTwoDaysAgo) = true
          \/ withinDays Sample.Date_parse now 7 (lastAssignedOf ["alice"] commentedTwoDaysAgo)
             = true).
Proof.
  apply (not_outdated_iff Sample.Date_parse Sample.findLinkedIssue 42 ["alice"]
           now commentedTwoDaysAgo); reflexivity.
Defined.

Lemma responses_of_the_classifier_witness :
  exists r, outdated commentedTenDaysAgo = Normal r
            /\ In r [ {| result := true; labels := statusUpdatedLabel |};
                      {| result := false; labels := statusUpdatedLabel |};
                      {| result := false; labels := "" |};
                      {| result := true; labels := toUpdateLabel |};
                      {| result := true; labels := inactiveLabel |} ].
Proof.
  apply (responses_of_the_classifier Sample.Date_parse Sample.findLinkedIssue 42 ["alice"]
           now commentedTenDaysAgo). reflexivity.
Defined.

Lemma other_events_are_ignored_witness :
  outdated [oldComment; newComment]
  = outdated [labeled bob (Some "2024-01-04T00:00:00Z"); oldComment;
              commented bob None (Some "2024-01-12T00:00:00Z"); newComment;
              crossReferenced bob "fixes #42" (Some "2024-01-14T00:00:00Z")].
Proof.
  apply (other_events_are_ignored Sample.Date_parse Sample.findLinkedIssue 42 ["alice"] now
           [labeled bob (Some "2024-01-04T00:00:00Z"); oldComment;
            commented bob None (Some "2024-01-12T00:00:00Z"); newComment;
            crossReferenced bob "fixes #42" (Some "2024-01-14T00:00:00Z")]).
  reflexivity.
Defined.

Lemma no_assignee_no_activity_witness :
  isTimelineOutdated Sample.Date_parse Sample.findLinkedIssue now commentedTwoDaysAgo 42 []
  = Normal {| result := true; labels := inactiveLabel |}.
Proof.
  apply (no_assignee_no_activity Sample.Date_parse Sample.findLinkedIssue 42 now
           commentedTwoDaysAgo). reflexivity.
Defined.

Lemma first_event_without_actor_throws_witness :
  outdated [labeled None (Some "2023-12-01T00:00:00Z"); newComment] = Throw TypeError.
Proof.
  apply (first_event_without_actor_throws Sample.Date_parse Sample.findLinkedIssue 42
           ["alice"] now (labeled None (Some "2023-12-01T00:00:00Z")) [newComment]);
    reflexivity.
Defined.

Lemma getTimeline_collects_the_pages_witness :
  getTimeline twoPages 3
  = Some (inr [assigned bob alice (Some "2023-12-20T00:00:00Z");
               commented alice None (Some "2024-01-05T00:00:00Z")]).
Proof.
  apply (getTimeline_collects_the_pages twoPages
           [[assigned bob alice (Some "2023-12-20T00:00:00Z")];
            [commented alice None (Some "2024-01-05T00:00:00Z")]] 3);
    try reflexivity. cbn [length]. lia.
Defined.

Lemma getTimeline_rejected_request_witness :
  getTimeline secondPageFails 5 = Some (inl (ReferenceError "error")).
Proof.
  apply (getTimeline_rejected_request secondPageFails
           [[assigned bob alice (Some "2023-12-20T00:00:00Z")]] 5);
    try reflexivity. cbn [length]. lia.
Defined.

Lemma getTimeline_needs_an_empty_page_witness :
  getTimeline endlessTimeline 1000 = None.
Proof.
  apply (getTimeline_needs_an_empty_page endlessTimeline 1000). intros page. reflexivity.
Defined.

Lemma listing_ends_at_the_first_empty_page_witness :
  getIssueNumsFromColumn SampleRun.listCards
  = flat_map yieldsOfReply (map SampleRun.listCards (seq 1 3)).
Proof.
  apply (listing_ends_at_the_first_empty_page SampleRun.listCards 3);
    try reflexivity. lia.
Defined.

Lemma listing_ends_after_page_99_witness :
  getIssueNumsFromColumn endlessCards
  = flat_map yieldsOfReply (map endlessCards (seq 1 99)).
Proof.
  apply (listing_ends_after_page_99 endlessCards). reflexivity.
Defined.

Lemma issue_number_of_a_url_witness :
  yieldsOfPage [ {| content_url := Some issueUrl |} ] = ["2607"].
Proof.
  apply (issue_number_of_a_url "https://api.github.com/repos/hackforla/website/issues"
           "2607"). reflexivity.
Defined.

Lemma yields_are_last_segments_witness :
  mentions "/" "2400" = false
  /\ exists page data c url,
       (1 <= page <= 99)%nat /\ SampleRun.listCards page = Data data /\ In c data
       /\ content_url c = Some url /\ "2400" = pop (split "/" url).
Proof.
  apply (yields_are_last_segments SampleRun.listCards "2400").
  vm_compute. right. left. reflexivity.
Defined.

Lemma unfetched_assignees_stop_the_run_witness :
  run 5 [1; 2; 3; 4; 5]%positive
  = ([removeLabel 1 statusUpdatedLabel; removeLabel 1 inactiveLabel;
      addLabelsCall 1 [toUpdateLabel]; createComment 1 ["alice"] toUpdateLabel None],
     Threw (Raised TypeError)).
Proof.
  apply (unfetched_assignees_stop_the_run Sample.Date_parse Sample.findLinkedIssue ecma402 now
           SampleRun.issues_get SampleRun.listEventsForTimeline 5
           [1; 2]%positive [4; 5]%positive 3%positive); reflexivity.
Defined.

Lemma rejected_timeline_stops_the_run_witness :
  run 5 [1; 2; 4; 5]%positive
  = ([removeLabel 1 statusUpdatedLabel; removeLabel 1 inactiveLabel;
      addLabelsCall 1 [toUpdateLabel]; createComment 1 ["alice"] toUpdateLabel None],
     Threw (ReferenceError "error")).
Proof.
  apply (rejected_timeline_stops_the_run Sample.Date_parse Sample.findLinkedIssue ecma402 now
           SampleRun.issues_get SampleRun.listEventsForTimeline 5
           [1; 2]%positive [5]%positive 4%positive _
           [[assigned bob alice (Some "2023-12-20T00:00:00Z")]]);
    try reflexivity. cbn [length]. lia.
Defined.

Lemma requests_name_assigned_issues_witness :
  In 5%positive [1; 2; 5]%positive
  /\ isPage (SampleRun.issues_get 5) = true.
Proof.
  apply (requests_name_assigned_issues Sample.Date_parse Sample.findLinkedIssue ecma402 now
           SampleRun.issues_get SampleRun.listEventsForTimeline 5 [1; 2; 5]%positive
           (addLabelsCall 5 [toUpdateLabel])).
  vm_compute. do 6 right. left. reflexivity.
Defined.

Lemma run_returns_witness :
  snd (run 5 [1; 2; 5]%positive) = Returned
  /\ (length (fst (run 5 [1; 2; 5]%positive)) <= 4 * 3)%nat.
Proof.
  apply (run_returns Sample.Date_parse Sample.findLinkedIssue ecma402 now
           SampleRun.issues_get SampleRun.listEventsForTimeline 5 [1; 2; 5]%positive
           (fun _ => [assigned bob alice (Some "2023-12-20T00:00:00Z");
                      commented alice None (Some "2024-01-05T00:00:00Z")])).
  intros k [Hk|[Hk|[Hk|[]]]]; subst k;
    [right|left; reflexivity|right]; repeat split; reflexivity.
Defined.

Lemma every_assignee_is_mentioned_witness :
  exists before after,
    createAssigneeString ["alice"; "bob"; "carol"] = before ++ "@" ++ "bob" ++ after.
Proof.
  apply (every_assignee_is_mentioned ["alice"; "bob"; "carol"] "bob").
  right. left. reflexivity.
Defined.

Lemma instructions_fill_the_template_witness :
  instructions node12 now ["alice"; "bob"] toUpdateLabel
  = Some "Hello @alice, @bob, please update before Sunday, January 7, 2024 at 4:00 PM PST; label: To Update !. (${label})".
Proof.
  apply (instructions_fill_the_template node12 now
           "Hello " ", please update before " "; label: " ". (${label})"
           "Sunday, January 7, 2024 at 4:00 PM PST" toUpdateLabel ["alice"; "bob"]);
    reflexivity.
Defined.

Lemma template_without_placeholder_witness :
  instructions {| readFileSync := Some "Please update this issue.";
                  toLocaleString := toLocaleString node12 |}
               now ["alice"] inactiveLabel
  = Some "Please update this issue.".
Proof.
  apply (template_without_placeholder
           {| readFileSync := Some "Please update this issue.";
              toLocaleString := toLocaleString node12 |}
           now "Please update this issue." "Sunday, January 7, 2024 at 4:00 PM PST"
           inactiveLabel ["alice"]); reflexivity.
Defined.

Lemma no_comment_when_formatComment_throws_witness :
  bodiesOf (fst (run 5 [1; 2; 5]%positive)) = [].
Proof.
  apply (no_comment_when_formatComment_throws Sample.Date_parse Sample.findLinkedIssue now
           SampleRun.issues_get SampleRun.listEventsForTimeline ecma402 5 [1; 2; 5]%positive).
  right. reflexivity.
Defined.

(** The same run where the options are accepted requests two comments. *)
Example comments_of_the_sample_run :
  bodiesOf (fst (main Sample.Date_parse Sample.findLinkedIssue node12 now
                      SampleRun.issues_get SampleRun.listEventsForTimeline 5
                      [1; 2; 5]%positive))
  = ["Hello @alice, please update before Sunday, January 7, 2024 at 4:00 PM PST; label: To Update !. (${label})";
     "Hello @alice, please update before Sunday, January 7, 2024 at 4:00 PM PST; label: To Update !. (${label})"].
Proof. reflexivity. Qed.

End ExamplesOfTheRun.
